(** * meta_learn/proto/train.py: the training driver of the prototypical network

    The script is a sequential driver over external libraries (torch, numpy,
    tqdm, tensorboard, argparse, os.path and the episodic data loaders).  It is
    embedded as a program over a signature of library calls: every call the
    script makes is a node of the program, the code between two calls is plain
    Rocq, and a [with] block is a node that makes the exit call of its
    context manager however its body ends.  A program is run against a
    handler that answers the calls, by a value or by an exception; the run
    returns the outcome, the final state of the handler and the trace of the
    calls that were made, each with its answer.

    One pass over a data loader is the list of the batches it yields; the
    loops of [train] and [test] look at a prefix of it only.  Tensors and
    floats are the libraries' own: what [np.mean], [torch.argmax] or the
    forward pass compute is what the handler answers. *)

From Stdlib Require Import String Ascii DecimalString.
From Stdlib Require Import ZArith QArith Bool Lia List.
Import ListNotations.

Set Implicit Arguments.
Local Open Scope Z_scope.

(** ** Python values the script handles *)

(** Exceptions.  The script defines none of its own: what can be raised is
    the interpreter's [ZeroDivisionError] (from [t % config.log_every]),
    [SystemExit] from argparse, and whatever a library call raises. *)
Inductive exn : Type :=
| ZeroDivisionError
| SystemExit (code : Z)
| LibraryError (name : string).

Inductive outcome (A : Type) : Type :=
| Returned (a : A)
| Raised (e : exn).
Arguments Raised {A} e.

(** [str(n)] for a Python int. *)
Definition str_int (n : Z) : string := NilZero.string_of_int (Z.to_int n).

(** [range(n)]: empty when [n <= 0]. *)
Definition range (n : Z) : list Z := map Z.of_nat (seq 0 (Z.to_nat n)).

(** ** The command line

    [argparse] as far as the script uses it: a parser is the list of its
    registered actions; [ArgumentParser()] registers the help action, since
    [add_help] defaults to [True]; [add_argument] with an option string, a
    type and a default registers a store action. *)

Module argparse.

Inductive arg_type : Type := type_int | type_str.

Inductive value : Type :=
| VInt (n : Z)
| VStr (s : string).

Inductive action_kind : Type := store | help.

Record action : Type := {
  option_strings : list string;
  dest : string;
  kind : action_kind;
  type : option arg_type;
  default : option value
}.

Record Parser : Type := { actions : list action }.

Definition help_action : action := {|
  option_strings := ["-h"; "--help"]%string;
  dest := "help";
  kind := help;
  type := None;
  default := None
|}.

Definition make_parser (add_help : bool) : Parser :=
  {| actions := if add_help then [help_action] else [] |}.

(** [argparse.ArgumentParser()]: every keyword at its default, [add_help=True]
    among them. *)
Definition ArgumentParser : Parser := make_parser true.

(** The attribute name of an option: the option string without its leading
    dashes, inner dashes replaced by underscores. *)
Fixpoint lstrip_dashes (s : string) : string :=
  match s with
  | String "-" s' => lstrip_dashes s'
  | _ => s
  end.

Fixpoint dashes_to_underscores (s : string) : string :=
  match s with
  | EmptyString => EmptyString
  | String c s' => String (if Ascii.eqb c "-" then "_"%char else c) (dashes_to_underscores s')
  end.

Definition dest_of (option_string : string) : string :=
  dashes_to_underscores (lstrip_dashes option_string).

(** [parser.add_argument(option_string, type=ty, default=value)] *)
Definition add_argument (parser : Parser) (option_string : string) (ty : arg_type)
    (value : value) : Parser :=
  {| actions := actions parser
                ++ [ {| option_strings := [option_string];
                        dest := dest_of option_string;
                        kind := store;
                        type := Some ty;
                        default := Some value |} ] |}.




(** The namespace of a command line without arguments: every attribute at
    its default. *)
Definition defaults (parser : Parser) : list (string * value) :=
  flat_map (fun a => match default a with
                     | Some v => [(dest a, v)]
                     | None => []
                     end) (actions parser).

Fixpoint getattr (namespace : list (string * value)) (name : string) : option value :=
  match namespace with
  | [] => None
  | (n, v) :: namespace' => if String.eqb n name then Some v else getattr namespace' name
  end.

End argparse.

(** The namespace [parser.parse_args()] returns, as [main] reads it. *)
Record Config : Type := {
  num_classes : Z;
  num_samples : Z;
  num_batches : Z;
  batch_size : Z;
  epochs : Z;
  log_every : Z;
  path : string
}.

(** Lines 133-140: the parser of the script; [cwd] is what [os.getcwd()]
    returns. *)
Definition parser (cwd : string) : argparse.Parser :=
  let parser := argparse.ArgumentParser in
  let parser := argparse.add_argument parser "--num_classes" argparse.type_int (argparse.VInt 5) in
  let parser := argparse.add_argument parser "--num_samples" argparse.type_int (argparse.VInt 1) in
  let parser := argparse.add_argument parser "--num_batches" argparse.type_int (argparse.VInt 500) in
  let parser := argparse.add_argument parser "--batch_size" argparse.type_int (argparse.VInt 32) in
  let parser := argparse.add_argument parser "--epochs" argparse.type_int (argparse.VInt 100) in
  let parser := argparse.add_argument parser "--log_every" argparse.type_int (argparse.VInt 1) in
  argparse.add_argument parser "--path" argparse.type_str (argparse.VStr cwd).

(** The attributes [main] reads from the namespace. *)
Definition config_of (namespace : list (string * argparse.value)) : option Config :=
  match argparse.getattr namespace "num_classes", argparse.getattr namespace "num_samples",
        argparse.getattr namespace "num_batches", argparse.getattr namespace "batch_size",
        argparse.getattr namespace "epochs", argparse.getattr namespace "log_every",
        argparse.getattr namespace "path" with
  | Some (argparse.VInt way), Some (argparse.VInt shot), Some (argparse.VInt batches),
    Some (argparse.VInt bs), Some (argparse.VInt n), Some (argparse.VInt every),
    Some (argparse.VStr p) =>
      Some {| num_classes := way; num_samples := shot; num_batches := batches;
              batch_size := bs; epochs := n; log_every := every; path := p |}
  | _, _, _, _, _, _, _ => None
  end.


(** The object kinds of the libraries.  They stay abstract: the script only
    passes them around. *)
Class Domain : Type := {
  Tensor : Type;
  PyFloat : Type;
  Dataset : Type;
  Loader : Type;
  Model : Type;
  Parameters : Type;
  Optimizer : Type;
  Criterion : Type;
  Writer : Type;
  (* [str(x)] of a float, as an f-string interpolates it *)
  float_str : PyFloat -> string
}.

Section Program.
Context {D : Domain}.

(** An episodic batch: the dict with the keys ["train"] (support inputs and
    labels) and ["test"] (query inputs and labels). *)
Record Batch : Type := {
  b_train : Tensor * Tensor;
  b_test : Tensor * Tensor
}.

(** ** The library calls of the script *)

Inductive call : Type -> Type :=
(* torch *)
| CudaIsAvailable : call bool
| ModelZeroGrad (model : Model) : call unit
| To (t : Tensor) (device : string) : call Tensor
| Forward (model : Model) (support_x support_y query_x : Tensor) : call Tensor
| LossFn (loss_fn : Criterion) (logits target : Tensor) : call Tensor
| Detach (t : Tensor) : call Tensor
| Item (t : Tensor) : call PyFloat
| OptimizerZeroGrad (optimizer : Optimizer) : call unit
| Backward (loss : Tensor) : call unit
| OptimizerStep (optimizer : Optimizer) : call unit
| NoGradEnter : call unit
| NoGradExit : call unit
| Argmax (t : Tensor) (dim : Z) : call Tensor
| TensorEq (a b : Tensor) : call Tensor
| ToFloat (t : Tensor) : call Tensor
| TorchMean (t : Tensor) : call Tensor
| ProtoNetwork (in_channels hidden : Z) : call Model
| ModelParameters (model : Model) : call Parameters
| Adam (params : Parameters) (lr : Q) : call Optimizer (* [lr] as written *)
| CrossEntropyLoss : call Criterion
| ModelCuda (model : Model) : call unit
(* tensorboard *)
| SummaryWriter (logdir : string) : call Writer
| AddScalar (writer : Writer) (tag : string) (value : PyFloat) (step : Z) : call unit
(* os, os.path *)
| OsGetcwd : call string
| OsPathJoin (a b : string) : call string
| OsPathAbspath (p : string) : call string
| OsPathExists (p : string) : call bool
(* meta_learn.datasets; a keyword that is not passed is [None] *)
| Omniglot (folder : string) (shots ways : Z) (shuffle : bool)
           (meta_train meta_val : option bool) (download : bool) : call Dataset
| BatchMetaDataLoader (dataset : Dataset) (batch_size : Z) (shuffle : bool)
                      (num_workers : Z) : call Loader
(* tqdm over a data loader: the batches one pass over it yields, and the
   closing of the bar when its [with] block is left *)
| Tqdm (dataloader : Loader) (total : Z) : call (list Batch)
| TqdmClose : call unit
(* numpy *)
| NpMean (l : list PyFloat) : call PyFloat
(* argparse: the command line parsed by a parser *)
| ParseArgs (parser : argparse.Parser) : call Config
(* builtins *)
| Print (s : string) : call unit.

(** ** Programs *)

(** [Finally body exit k] runs [body], then makes the call [exit] whether
    [body] returned or raised, and goes on with [k] when it returned: what the
    end of a [with] block does with the [__exit__] of a context manager that
    does not suppress exceptions. *)
Inductive Prog (A : Type) : Type :=
| Ret (a : A)
| Raise (e : exn)
| Call (X : Type) (c : call X) (k : X -> Prog A)
| Finally (B : Type) (body : Prog B) (exit : call unit) (k : B -> Prog A).
Arguments Raise {A} e.
Arguments Call {A X} c k.
Arguments Finally {A B} body exit k.

Fixpoint bind {A B : Type} (p : Prog A) (f : A -> Prog B) : Prog B :=
  match p with
  | Ret a => f a
  | Raise e => Raise e
  | Call c k => Call c (fun x => bind (k x) f)
  | Finally body exit k => Finally body exit (fun b => bind (k b) f)
  end.

Definition perform {X : Type} (c : call X) : Prog X := Call c (fun x => Ret x).

(** [with enter as x: body], the context manager being left by [exit]. *)
Definition with_ {X B : Type} (enter : call X) (exit : call unit) (body : X -> Prog B)
  : Prog B :=
  Call enter (fun x => Finally (body x) exit (fun b => Ret b)).

End Program.

Arguments Ret {D A} a.
Arguments Raise {D A} e.
Arguments Call {D A X} c k.
Arguments Finally {D A B} body exit k.

Declare Scope prog_scope.
Delimit Scope prog_scope with prog.
Notation "x <- p ;; q" := (bind p (fun x => q))
  (at level 61, p at next level, right associativity) : prog_scope.
Notation "p ;; q" := (bind p (fun _ => q))
  (at level 61, right associativity) : prog_scope.
Local Open Scope prog_scope.

(** ** train.py *)

Section Script.
Context {D : Domain}.

(** Line 18: [device = "cuda" if torch.cuda.is_available() else "cpu"],
    evaluated once when the module is loaded. *)
Definition device_init : Prog string :=
  available <- perform CudaIsAvailable ;;
  Ret (if available then "cuda"%string else "cpu"%string).

(** The module-level global [device]. *)
Variable device : string.

(** Lines 25-45: the body of the loop of [train], for the batches that are
    left in [pbar]; [batch_idx] is the counter of [enumerate]. *)
Fixpoint train_loop (model : Model) (loss_fn : Criterion) (optimizer : Optimizer)
    (num_batches : Z) (pbar : list Batch) (batch_idx : Z)
    (avg_loss : list PyFloat) : Prog (list PyFloat) :=
  match pbar with
  | [] => Ret avg_loss
  | batch :: pbar' =>
      perform (ModelZeroGrad model) ;;
      let '(support_x, support_y) := b_train batch in
      let '(query_x, query_y) := b_test batch in
      support_x <- perform (To support_x device) ;;
      support_y <- perform (To support_y device) ;;
      query_x <- perform (To query_x device) ;;
      query_y <- perform (To query_y device) ;;
      logits <- perform (Forward model support_x support_y query_x) ;;
      loss <- perform (LossFn loss_fn logits query_y) ;;
      detached <- perform (Detach loss) ;;
      value <- perform (Item detached) ;;
      let avg_loss := (avg_loss ++ [value])%list in
      perform (OptimizerZeroGrad optimizer) ;;
      perform (Backward loss) ;;
      perform (OptimizerStep optimizer) ;;
      if batch_idx >? num_batches then Ret avg_loss
      else train_loop model loss_fn optimizer num_batches pbar' (batch_idx + 1) avg_loss
  end.

(** Lines 21-47. *)
Definition train (dataloader : Loader) (model : Model) (loss_fn : Criterion)
    (optimizer : Optimizer) (num_batches : Z) : Prog PyFloat :=
  avg_loss <- with_ (Tqdm dataloader num_batches) TqdmClose (fun pbar =>
                train_loop model loss_fn optimizer num_batches pbar 0 []) ;;
  perform (NpMean avg_loss).

(** Lines 56-75: the body of the loop of [test]. *)
Fixpoint test_loop (model : Model) (loss_fn : Criterion) (num_batches : Z)
    (pbar : list Batch) (batch_idx : Z)
    (accuracy_list avg_loss : list PyFloat) : Prog (list PyFloat * list PyFloat) :=
  match pbar with
  | [] => Ret (accuracy_list, avg_loss)
  | batch :: pbar' =>
      perform (ModelZeroGrad model) ;;
      let '(support_x, support_y) := b_train batch in
      let '(query_x, query_y) := b_test batch in
      support_x <- perform (To support_x device) ;;
      support_y <- perform (To support_y device) ;;
      query_x <- perform (To query_x device) ;;
      query_y <- perform (To query_y device) ;;
      logits <- perform (Forward model support_x support_y query_x) ;;
      loss <- perform (LossFn loss_fn logits query_y) ;;
      detached <- perform (Detach loss) ;;
      value <- perform (Item detached) ;;
      let avg_loss := (avg_loss ++ [value])%list in
      test_predictions <- perform (Argmax logits 1) ;;
      hits <- perform (TensorEq test_predictions query_y) ;;
      hits <- perform (ToFloat hits) ;;
      accuracy <- perform (TorchMean hits) ;;
      accuracy <- perform (Item accuracy) ;;
      let accuracy_list := (accuracy_list ++ [accuracy])%list in
      if batch_idx >? num_batches then Ret (accuracy_list, avg_loss)
      else test_loop model loss_fn num_batches pbar' (batch_idx + 1) accuracy_list avg_loss
  end.

(** Lines 50-77. *)
Definition test (dataloader : Loader) (model : Model) (loss_fn : Criterion)
    (num_batches : Z) : Prog (PyFloat * PyFloat) :=
  lists <- with_ NoGradEnter NoGradExit (fun _ =>
             with_ (Tqdm dataloader num_batches) TqdmClose (fun pbar =>
               test_loop model loss_fn num_batches pbar 0 [] [])) ;;
  mean_accuracy <- perform (NpMean (fst lists)) ;;
  mean_loss <- perform (NpMean (snd lists)) ;;
  Ret (mean_accuracy, mean_loss).

(** [os.pardir] *)
Definition os_pardir : string := "..".

(** Line 87: ["{}/{}/_{}_{}".format(path, "model", config.num_classes, 1)] *)
Definition logdir_of (config : Config) : string :=
  (path config ++ "/" ++ "model" ++ "/_" ++ str_int (num_classes config)
     ++ "_" ++ str_int 1)%string.

(** Line 91: [f"{parent_dir}/data/"] *)
Definition data_path_of (parent_dir : string) : string :=
  (parent_dir ++ "/data/")%string.

(** Line 93: [f"{data_path}/omniglot"] *)
Definition omniglot_dir (data_path : string) : string :=
  (data_path ++ "/omniglot")%string.

(** [a % b] on Python ints: the sign follows the divisor, and a zero divisor
    raises. *)
Definition py_mod (a b : Z) : Prog Z :=
  if b =? 0 then Raise ZeroDivisionError else Ret (a mod b).

(** Line 120: [f"Epoch {t+1}\n-------------------------------"] *)
Definition epoch_header (t : Z) : string :=
  ("Epoch " ++ str_int (t + 1) ++ String "010" "-------------------------------")%string.

(** Line 126 *)
Definition epoch_report (train_loss test_loss test_accuracy : PyFloat) : string :=
  ("Train Loss: " ++ float_str train_loss
     ++ "    Test Loss: " ++ float_str test_loss
     ++ "      Test Acc: " ++ float_str test_accuracy)%string.

(** Lines 120-129: one epoch. *)
Definition epoch (config : Config) (writer : Writer) (trainloader testloader : Loader)
    (model : Model) (loss_fn : Criterion) (optimizer : Optimizer) (t : Z) : Prog unit :=
  perform (Print (epoch_header t)) ;;
  train_loss <- train trainloader model loss_fn optimizer (num_batches config) ;;
  r <- py_mod t (log_every config) ;;
  if r =? 0 then
    result <- test testloader model loss_fn (num_batches config) ;;
    let '(test_accuracy, test_loss) := result in
    perform (Print (epoch_report train_loss test_loss test_accuracy)) ;;
    perform (AddScalar writer "Train Loss" train_loss t) ;;
    perform (AddScalar writer "Test Loss" test_loss t) ;;
    perform (AddScalar writer "Meta-Test Accuracy" test_accuracy t)
  else Ret tt.

(** [for t in ts: body(t)] *)
Fixpoint for_each (ts : list Z) (body : Z -> Prog unit) : Prog unit :=
  match ts with
  | [] => Ret tt
  | t :: ts' => body t ;; for_each ts' body
  end.

(** Lines 80-129. *)
Definition main (config : Config) : Prog unit :=
  let bs := batch_size config in
  let way := num_classes config in
  let shot := num_samples config in
  let logdir := logdir_of config in
  writer <- perform (SummaryWriter logdir) ;;
  joined <- perform (OsPathJoin (path config) os_pardir) ;;
  parent_dir <- perform (OsPathAbspath joined) ;;
  let data_path := data_path_of parent_dir in
  found <- perform (OsPathExists (omniglot_dir data_path)) ;;
  let download := if found then false else true in
  train_dataset <- perform (Omniglot data_path shot way true (Some true) None download) ;;
  test_dataset <- perform (Omniglot data_path shot way true None (Some true) download) ;;
  trainloader <- perform (BatchMetaDataLoader train_dataset bs true 4) ;;
  testloader <- perform (BatchMetaDataLoader test_dataset bs true 4) ;;
  model <- perform (ProtoNetwork 1 32) ;;
  params <- perform (ModelParameters model) ;;
  optimizer <- perform (Adam params (1 # 10000)) ;;
  loss_fn <- perform CrossEntropyLoss ;;
  available <- perform CudaIsAvailable ;;
  (if available then perform (ModelCuda model) else Ret tt) ;;
  for_each (range (epochs config))
    (epoch config writer trainloader testloader model loss_fn optimizer).

End Script.

Arguments train {D} device dataloader model loss_fn optimizer num_batches.
Arguments test {D} device dataloader model loss_fn num_batches.
Arguments main {D} device config.
Arguments epoch {D} device config writer trainloader testloader model loss_fn optimizer t.
Arguments for_each {D} ts body.

(** The module as the interpreter runs it: line 18 sets the global [device],
    then lines 132-141 parse the command line and call [main]. *)
Definition train_py {D : Domain} : Prog unit :=
  device <- device_init ;;
  cwd <- perform OsGetcwd ;;
  config <- perform (ParseArgs (parser cwd)) ;;
  main device config.

(** ** Running a program *)

Section Run.
Context {D : Domain}.

(** A call that was made, with the answer it got. *)
Record event : Type := Ev {
  ev_type : Type;
  ev_call : call ev_type;
  ev_answer : outcome ev_type
}.
Arguments Ev {ev_type} ev_call ev_answer.

(** A handler answers every call from its state: it returns a value or
    raises, and moves to a new state. *)
Definition handler (S : Type) : Type := forall X : Type, call X -> S -> outcome X * S.

(** The script has no [try]: a call that raises ends the run, after the
    exits of the [with] blocks it is in, and an exit that raises replaces the
    exception under way. *)
Fixpoint run {S A : Type} (h : handler S) (p : Prog A) (s : S)
  : outcome A * S * list event :=
  match p with
  | Ret a => (Returned a, s, [])
  | Raise e => (Raised e, s, [])
  | Call c k =>
      match h _ c s with
      | (Returned x, s1) =>
          let '(o, s2, tr) := run h (k x) s1 in (o, s2, Ev c (Returned x) :: tr)
      | (Raised e, s1) => (Raised e, s1, [Ev c (Raised e)])
      end
  | Finally body exit k =>
      let '(o, s1, tr) := run h body s in
      match h _ exit s1 with
      | (Returned u, s2) =>
          match o with
          | Returned b =>
              let '(o', s3, tr') := run h (k b) s2 in
              (o', s3, tr ++ Ev exit (Returned u) :: tr')
          | Raised e => (Raised e, s2, tr ++ [Ev exit (Returned u)])
          end
      | (Raised e', s2) => (Raised e', s2, tr ++ [Ev exit (Raised e')])
      end
  end.

Definition result_of {S A : Type} (r : outcome A * S * list event) : outcome A := fst (fst r).
Definition state_of {S A : Type} (r : outcome A * S * list event) : S := snd (fst r).
Definition trace_of {S A : Type} (r : outcome A * S * list event) : list event := snd r.

(** A library whose calls all return. *)
Definition library (S : Type) : Type := forall X : Type, call X -> S -> X * S.

Definition answer {S : Type} (lib : library S) : handler S :=
  fun X c s => let '(x, s1) := lib X c s in (Returned x, s1).

(** The batches one pass over [dataloader] yields when it starts in state [s]. *)
Definition yielded {S : Type} (lib : library S) (dataloader : Loader) (total : Z)
    (s : S) : list Batch :=
  fst (lib _ (Tqdm dataloader total) s).

(** The kind of a call, without its arguments. *)
Inductive op : Type :=
| OpCudaIsAvailable | OpModelZeroGrad | OpTo | OpForward | OpLossFn | OpDetach
| OpItem | OpOptimizerZeroGrad | OpBackward | OpOptimizerStep | OpNoGradEnter
| OpNoGradExit | OpArgmax | OpTensorEq | OpToFloat | OpTorchMean | OpProtoNetwork
| OpModelParameters | OpAdam | OpCrossEntropyLoss | OpModelCuda | OpSummaryWriter | OpAddScalar
| OpOsGetcwd | OpOsPathJoin | OpOsPathAbspath | OpOsPathExists | OpOmniglot
| OpBatchMetaDataLoader | OpTqdm | OpTqdmClose | OpNpMean | OpParseArgs | OpPrint.

Definition op_of {X : Type} (c : call X) : op :=
  match c with
  | CudaIsAvailable => OpCudaIsAvailable
  | ModelZeroGrad _ => OpModelZeroGrad
  | To _ _ => OpTo
  | Forward _ _ _ _ => OpForward
  | LossFn _ _ _ => OpLossFn
  | Detach _ => OpDetach
  | Item _ => OpItem
  | OptimizerZeroGrad _ => OpOptimizerZeroGrad
  | Backward _ => OpBackward
  | OptimizerStep _ => OpOptimizerStep
  | NoGradEnter => OpNoGradEnter
  | NoGradExit => OpNoGradExit
  | Argmax _ _ => OpArgmax
  | TensorEq _ _ => OpTensorEq
  | ToFloat _ => OpToFloat
  | TorchMean _ => OpTorchMean
  | ProtoNetwork _ _ => OpProtoNetwork
  | ModelParameters _ => OpModelParameters
  | Adam _ _ => OpAdam
  | CrossEntropyLoss => OpCrossEntropyLoss
  | ModelCuda _ => OpModelCuda
  | SummaryWriter _ => OpSummaryWriter
  | AddScalar _ _ _ _ => OpAddScalar
  | OsGetcwd => OpOsGetcwd
  | OsPathJoin _ _ => OpOsPathJoin
  | OsPathAbspath _ => OpOsPathAbspath
  | OsPathExists _ => OpOsPathExists
  | Omniglot _ _ _ _ _ _ _ => OpOmniglot
  | BatchMetaDataLoader _ _ _ _ => OpBatchMetaDataLoader
  | Tqdm _ _ => OpTqdm
  | TqdmClose => OpTqdmClose
  | NpMean _ => OpNpMean
  | ParseArgs _ => OpParseArgs
  | Print _ => OpPrint
  end.

Definition ops (tr : list event) : list op := map (fun e => op_of (ev_call e)) tr.

(** How many batches a loop of [train] or [test] takes from a pass that
    yields [available] of them: the test [batch_idx > num_batches] is made
    after a batch is processed and first holds at index [num_batches + 1]. *)
Definition iterations (num_batches : Z) (available : nat) : nat :=
  Nat.min available (Z.to_nat (Z.max 1 (num_batches + 2))).

(** What the library answered during one iteration of [train]. *)
Record train_answers : Type := {
  ta_support_x : Tensor;
  ta_support_y : Tensor;
  ta_query_x : Tensor;
  ta_query_y : Tensor;
  ta_logits : Tensor;
  ta_loss : Tensor;
  ta_detached : Tensor;
  ta_value : PyFloat
}.

(** The calls of one iteration of [train] on [batch], in the order in which
    they are made. *)
Definition train_step_events (device : string) (model : Model) (loss_fn : Criterion)
    (optimizer : Optimizer) (batch : Batch) (a : train_answers) : list event :=
  [ Ev (ModelZeroGrad model) (Returned tt);
    Ev (To (fst (b_train batch)) device) (Returned (ta_support_x a));
    Ev (To (snd (b_train batch)) device) (Returned (ta_support_y a));
    Ev (To (fst (b_test batch)) device) (Returned (ta_query_x a));
    Ev (To (snd (b_test batch)) device) (Returned (ta_query_y a));
    Ev (Forward model (ta_support_x a) (ta_support_y a) (ta_query_x a))
       (Returned (ta_logits a));
    Ev (LossFn loss_fn (ta_logits a) (ta_query_y a)) (Returned (ta_loss a));
    Ev (Detach (ta_loss a)) (Returned (ta_detached a));
    Ev (Item (ta_detached a)) (Returned (ta_value a));
    Ev (OptimizerZeroGrad optimizer) (Returned tt);
    Ev (Backward (ta_loss a)) (Returned tt);
    Ev (OptimizerStep optimizer) (Returned tt) ].

(** What the library answered during one iteration of [test]. *)
Record test_answers : Type := {
  te_support_x : Tensor;
  te_support_y : Tensor;
  te_query_x : Tensor;
  te_query_y : Tensor;
  te_logits : Tensor;
  te_loss : Tensor;
  te_detached : Tensor;
  te_value : PyFloat;
  te_predictions : Tensor;
  te_hits : Tensor;
  te_hits_float : Tensor;
  te_mean : Tensor;
  te_accuracy : PyFloat
}.

Definition test_step_events (device : string) (model : Model) (loss_fn : Criterion)
    (batch : Batch) (a : test_answers) : list event :=
  [ Ev (ModelZeroGrad model) (Returned tt);
    Ev (To (fst (b_train batch)) device) (Returned (te_support_x a));
    Ev (To (snd (b_train batch)) device) (Returned (te_support_y a));
    Ev (To (fst (b_test batch)) device) (Returned (te_query_x a));
    Ev (To (snd (b_test batch)) device) (Returned (te_query_y a));
    Ev (Forward model (te_support_x a) (te_support_y a) (te_query_x a))
       (Returned (te_logits a));
    Ev (LossFn loss_fn (te_logits a) (te_query_y a)) (Returned (te_loss a));
    Ev (Detach (te_loss a)) (Returned (te_detached a));
    Ev (Item (te_detached a)) (Returned (te_value a));
    Ev (Argmax (te_logits a) 1) (Returned (te_predictions a));
    Ev (TensorEq (te_predictions a) (te_query_y a)) (Returned (te_hits a));
    Ev (ToFloat (te_hits a)) (Returned (te_hits_float a));
    Ev (TorchMean (te_hits_float a)) (Returned (te_mean a));
    Ev (Item (te_mean a)) (Returned (te_accuracy a)) ].

(** The events of the iterations over [batches], one record of answers per
    batch. *)
Definition steps_events {B : Type} (step : Batch -> B -> list event)
    (batches : list Batch) (answers : list B) : list event :=
  flat_map (fun ba => step (fst ba) (snd ba)) (combine batches answers).

(** The number of forward passes in a trace: one per processed batch. *)
Definition is_forward (e : event) : bool :=
  match ev_call e with
  | Forward _ _ _ _ => true
  | _ => false
  end.

Definition forward_passes (tr : list event) : nat := List.length (filter is_forward tr).

(** The order of the calls of one iteration of [train], and of [test]. *)
Definition train_step_ops : list op :=
  [OpModelZeroGrad; OpTo; OpTo; OpTo; OpTo; OpForward; OpLossFn; OpDetach; OpItem;
   OpOptimizerZeroGrad; OpBackward; OpOptimizerStep].

Definition test_step_ops : list op :=
  [OpModelZeroGrad; OpTo; OpTo; OpTo; OpTo; OpForward; OpLossFn; OpDetach; OpItem;
   OpArgmax; OpTensorEq; OpToFloat; OpTorchMean; OpItem].

(** The kinds of call that occur in [train], and in [test], the exits of
    their [with] blocks apart. *)
Definition train_op (o : op) : bool :=
  match o with
  | OpTqdm | OpModelZeroGrad | OpTo | OpForward | OpLossFn | OpDetach | OpItem
  | OpOptimizerZeroGrad | OpBackward | OpOptimizerStep | OpNpMean => true
  | _ => false
  end.

Definition test_op (o : op) : bool :=
  match o with
  | OpNoGradEnter | OpTqdm | OpModelZeroGrad | OpTo | OpForward | OpLossFn | OpDetach
  | OpItem | OpArgmax | OpTensorEq | OpToFloat | OpTorchMean | OpNpMean => true
  | _ => false
  end.

(** The calls by which torch writes the values of the parameters of a
    network: building it, moving it to the GPU, and the step of an optimizer
    over its parameters.  A forward pass reads them (what it may update are
    buffers such as running statistics), [zero_grad] and [backward] write
    gradients. *)
Definition writes_parameters (o : op) : bool :=
  match o with
  | OpProtoNetwork | OpModelCuda | OpOptimizerStep => true
  | _ => false
  end.

(** The calls that leave a [with] block. *)
Definition exit_op (o : op) : bool :=
  match o with
  | OpNoGradExit | OpTqdmClose => true
  | _ => false
  end.

(** What a program is built from: every call it makes in sequence is of a
    kind in [calls], every [with] block is left by a call of a kind in
    [exits], and every exception it raises by itself is in [raises]. *)
Inductive built_from (calls exits : op -> bool) (raises : exn -> Prop)
  : forall A : Type, Prog A -> Prop :=
| built_ret (A : Type) (a : A) : built_from calls exits raises (Ret a)
| built_raise (A : Type) (e : exn) :
    raises e -> built_from calls exits raises (Raise (A := A) e)
| built_call (A X : Type) (c : call X) (k : X -> Prog A) :
    calls (op_of c) = true ->
    (forall x, built_from calls exits raises (k x)) ->
    built_from calls exits raises (Call c k)
| built_finally (A B : Type) (body : Prog B) (exit : call unit) (k : B -> Prog A) :
    built_from calls exits raises body ->
    exits (op_of exit) = true ->
    (forall b, built_from calls exits raises (k b)) ->
    built_from calls exits raises (Finally body exit k).

Definition trace_only (P : op -> bool) (tr : list event) : Prop :=
  Forall (fun e => P (op_of (ev_call e)) = true) tr.

(** *** The trace of [main] *)

(** What the library answered while [main] set the run up (lines 87-116). *)
Record setup_answers : Type := {
  sa_writer : Writer;
  sa_joined : string;
  sa_parent_dir : string;
  sa_found : bool;
  sa_train_dataset : Dataset;
  sa_test_dataset : Dataset;
  sa_trainloader : Loader;
  sa_testloader : Loader;
  sa_model : Model;
  sa_parameters : Parameters;
  sa_optimizer : Optimizer;
  sa_loss_fn : Criterion;
  sa_cuda : bool
}.

(** The calls of lines 87-116, in order. *)
Definition setup_events (config : Config) (a : setup_answers) : list event :=
  let data_path := data_path_of (sa_parent_dir a) in
  [ Ev (SummaryWriter (logdir_of config)) (Returned (sa_writer a));
    Ev (OsPathJoin (path config) os_pardir) (Returned (sa_joined a));
    Ev (OsPathAbspath (sa_joined a)) (Returned (sa_parent_dir a));
    Ev (OsPathExists (omniglot_dir data_path)) (Returned (sa_found a));
    Ev (Omniglot data_path (num_samples config) (num_classes config) true
          (Some true) None (negb (sa_found a)))
       (Returned (sa_train_dataset a));
    Ev (Omniglot data_path (num_samples config) (num_classes config) true
          None (Some true) (negb (sa_found a)))
       (Returned (sa_test_dataset a));
    Ev (BatchMetaDataLoader (sa_train_dataset a) (batch_size config) true 4)
       (Returned (sa_trainloader a));
    Ev (BatchMetaDataLoader (sa_test_dataset a) (batch_size config) true 4)
       (Returned (sa_testloader a));
    Ev (ProtoNetwork 1 32) (Returned (sa_model a));
    Ev (ModelParameters (sa_model a)) (Returned (sa_parameters a));
    Ev (Adam (sa_parameters a) (1 # 10000)) (Returned (sa_optimizer a));
    Ev CrossEntropyLoss (Returned (sa_loss_fn a));
    Ev CudaIsAvailable (Returned (sa_cuda a)) ]
  ++ (if sa_cuda a then [Ev (ModelCuda (sa_model a)) (Returned tt)] else []).

Section Epochs.
Variables (S : Type) (lib : library S).
Variables (device : string) (config : Config) (a : setup_answers).

(** The trace of an epoch that only trains: the header is printed, then
    [train] runs. *)
Definition silent_epoch (t : Z) (tr : list event) : Prop :=
  exists s0 : S,
    tr = Ev (Print (epoch_header t)) (Returned tt)
         :: trace_of (run (answer lib)
                        (train device (sa_trainloader a) (sa_model a) (sa_loss_fn a)
                           (sa_optimizer a) (num_batches config)) s0).

(** The trace of an epoch that also evaluates and logs: after [train], the
    run of [test], the report, and the three scalars with step [t]. *)
Definition logged_epoch (t : Z) (tr : list event) : Prop :=
  exists (s0 : S) (train_loss test_accuracy test_loss : PyFloat),
    let r_train := run (answer lib)
                     (train device (sa_trainloader a) (sa_model a) (sa_loss_fn a)
                        (sa_optimizer a) (num_batches config)) s0 in
    let r_test := run (answer lib)
                    (test device (sa_testloader a) (sa_model a) (sa_loss_fn a)
                       (num_batches config)) (state_of r_train) in
    result_of r_train = Returned train_loss
    /\ result_of r_test = Returned (test_accuracy, test_loss)
    /\ tr = Ev (Print (epoch_header t)) (Returned tt)
            :: trace_of r_train ++ trace_of r_test
            ++ [ Ev (Print (epoch_report train_loss test_loss test_accuracy)) (Returned tt);
                 Ev (AddScalar (sa_writer a) "Train Loss" train_loss t) (Returned tt);
                 Ev (AddScalar (sa_writer a) "Test Loss" test_loss t) (Returned tt);
                 Ev (AddScalar (sa_writer a) "Meta-Test Accuracy" test_accuracy t)
                    (Returned tt) ].

(** The trace of epoch [t] when [log_every] is not zero. *)
Definition epoch_trace (t : Z) (tr : list event) : Prop :=
  if t mod log_every config =? 0 then logged_epoch t tr else silent_epoch t tr.

End Epochs.

(** The scalars a trace writes: writer, tag and step of each [add_scalar]. *)
Definition scalar_of (e : event) : list (Writer * string * Z) :=
  match ev_call e with
  | AddScalar writer tag _ step => [(writer, tag, step)]
  | _ => []
  end.

Definition scalars_written (tr : list event) : list (Writer * string * Z) :=
  flat_map scalar_of tr.

(** The writers a trace opens: the directory and the writer returned. *)
Definition writer_of (e : event) : list (string * outcome Writer) :=
  match e with
  | Ev (SummaryWriter logdir) w => [(logdir, w)]
  | _ => []
  end.

Definition writers_opened (tr : list event) : list (string * outcome Writer) :=
  flat_map writer_of tr.

(** The datasets a trace asks for: folder, [meta_train], [meta_val], [download]. *)
Definition dataset_of (e : event) : list (string * option bool * option bool * bool) :=
  match ev_call e with
  | Omniglot folder _ _ _ meta_train meta_val download =>
      [(folder, meta_train, meta_val, download)]
  | _ => []
  end.

Definition datasets_requested (tr : list event)
  : list (string * option bool * option bool * bool) :=
  flat_map dataset_of tr.

(** The existence checks of a trace: the path and the answer. *)
Definition path_check_of (e : event) : list (string * outcome bool) :=
  match e with
  | Ev (OsPathExists p) found => [(p, found)]
  | _ => []
  end.

Definition path_checks (tr : list event) : list (string * outcome bool) :=
  flat_map path_check_of tr.

(** The exception a call raised, if it raised. *)
Definition failure_of (e : event) : option exn :=
  match ev_answer e with
  | Raised x => Some x
  | Returned _ => None
  end.

(** A run handles no failure: once a call has raised, the run ends with an
    exception; the calls that follow are the exits of the [with] blocks that
    are left; and the exception is the one of that call unless a later call
    raised too. *)
Definition unhandled {S A : Type} (r : outcome A * S * list event) : Prop :=
  forall (tr1 : list event) (ev : event) (tr2 : list event) (e : exn),
    trace_of r = tr1 ++ ev :: tr2 -> failure_of ev = Some e ->
    (exists e', result_of r = Raised e')
    /\ trace_only exit_op tr2
    /\ (Forall (fun ev' => failure_of ev' = None) tr2 -> result_of r = Raised e).

(** The exception [e] was raised by a call of the run. *)
Definition raised_by_library {S A : Type} (r : outcome A * S * list event) (e : exn) : Prop :=
  exists ev : event, In ev (trace_of r) /\ failure_of ev = Some e.

(** The kinds of call that occur in the loop over the epochs. *)
Definition epoch_op (o : op) : bool :=
  match o with
  | OpPrint | OpAddScalar => true
  | _ => train_op o || test_op o || exit_op o
  end.

(** When epoch [t] logs. *)
Definition logs_at (config : Config) (t : Z) : bool :=
  negb (log_every config =? 0) && (t mod log_every config =? 0).

End Run.

(** The components of a POSIX path: what lies between slashes, empty
    components dropped, so that repeated slashes count as one. *)
Definition flush (component : string) : list string :=
  match component with
  | EmptyString => []
  | _ => [component]
  end.

Fixpoint components_from (s component : string) : list string :=
  match s with
  | EmptyString => flush component
  | String c s' =>
      if Ascii.eqb c "/" then flush component ++ components_from s' EmptyString
      else components_from s' (component ++ String c EmptyString)%string
  end.

Definition path_components (p : string) : list string := components_from p EmptyString.

Arguments Ev {D ev_type} ev_call ev_answer.


(** ** A small library to run the script against

    Tensors are integers and floats are rationals; a loader is the number of
    batches one pass over it yields; the state of the library is the one
    parameter of the network, which a step of the optimizer moves by [1]. *)

Module Toy.

Definition domain : Domain := {|
  Tensor := Z;
  PyFloat := Q;
  Dataset := unit;
  Loader := nat;
  Model := unit;
  Parameters := unit;
  Optimizer := unit;
  Criterion := unit;
  Writer := string;
  float_str := fun _ => "0.0"%string
|}.

Definition batch : Batch (D := domain) := @Build_Batch domain (1, 0) (2, 1).

Definition mean (l : list Q) : Q :=
  Qred (fold_right Qplus 0%Q l / inject_Z (Z.of_nat (List.length l))).

Definition config : Config := {|
  num_classes := 5;
  num_samples := 1;
  num_batches := 1;
  batch_size := 32;
  epochs := 3;
  log_every := 2;
  path := "/work/run"
|}.

(** The namespace of an empty command line. *)
Definition empty_command_line (parser : argparse.Parser) : Config :=
  match config_of (argparse.defaults parser) with
  | Some c => c
  | None => config
  end.

Definition lib : library (D := domain) Z :=
  fun X c =>
    match c in call X return Z -> X * Z with
    | CudaIsAvailable => fun s => (false, s)
    | ModelZeroGrad _ => fun s => (tt, s)
    | To t _ => fun s => (t, s)
    | Forward _ support_x _ query_x => fun s => (support_x + query_x + s, s)
    | LossFn _ logits target => fun s => (logits - target, s)
    | Detach t => fun s => (t, s)
    | Item t => fun s => (inject_Z t, s)
    | OptimizerZeroGrad _ => fun s => (tt, s)
    | Backward _ => fun s => (tt, s)
    | OptimizerStep _ => fun s => (tt, s + 1)
    | NoGradEnter => fun s => (tt, s)
    | NoGradExit => fun s => (tt, s)
    | Argmax t _ => fun s => (t mod 2, s)
    | TensorEq a b => fun s => (if a =? b then 1 else 0, s)
    | ToFloat t => fun s => (t, s)
    | TorchMean t => fun s => (t, s)
    | ProtoNetwork _ _ => fun s => (tt, 0)
    | ModelParameters _ => fun s => (tt, s)
    | Adam _ _ => fun s => (tt, s)
    | CrossEntropyLoss => fun s => (tt, s)
    | ModelCuda _ => fun s => (tt, s)
    | SummaryWriter logdir => fun s => (logdir, s)
    | AddScalar _ _ _ _ => fun s => (tt, s)
    | OsGetcwd => fun s => ("/work/run"%string, s)
    | OsPathJoin a b => fun s => ((a ++ "/" ++ b)%string, s)
    | OsPathAbspath p => fun s => (p, s)
    | OsPathExists _ => fun s => (false, s)
    | Omniglot _ _ _ _ _ _ _ => fun s => (tt, s)
    | BatchMetaDataLoader _ _ _ _ => fun s => (5%nat, s)
    | Tqdm dataloader _ => fun s => (repeat batch dataloader, s)
    | TqdmClose => fun s => (tt, s)
    | NpMean l => fun s => (mean l, s)
    | ParseArgs parser => fun s => (empty_command_line parser, s)
    | Print _ => fun s => (tt, s)
    end.

(** The same library with no network: a dataset that has to be downloaded
    cannot be built. *)
Definition wants_download {X : Type} (c : call (D := domain) X) : bool :=
  match c with
  | Omniglot _ _ _ _ _ _ download => download
  | _ => false
  end.

Definition offline : handler (D := domain) Z :=
  fun X c s =>
    if wants_download c then (Raised (LibraryError "URLError"), s)
    else answer lib c s.

(** The same library on a device that runs out of memory in the forward
    pass once the parameter has reached [1]. *)
Definition out_of_memory {X : Type} (c : call (D := domain) X) (s : Z) : bool :=
  match c with
  | Forward _ _ _ _ => s =? 1
  | _ => false
  end.

Definition small_device : handler (D := domain) Z :=
  fun X c s =>
    if out_of_memory c s then (Raised (LibraryError "OutOfMemoryError"), s)
    else answer lib c s.

Definition config_log_every_zero : Config := {|
  num_classes := 5;
  num_samples := 1;
  num_batches := 1;
  batch_size := 32;
  epochs := 3;
  log_every := 0;
  path := "/work/run"
|}.

End Toy.
From Stdlib Require DecimalZ DecimalPos.


(** ** Further observations on programs and traces *)

Section Observations.
Context {D : Domain}.

Definition op_eq_dec : forall a b : op, {a = b} + {a <> b}.
Proof. decide equality. Defined.

(** How many calls of kind [o] a trace holds. *)
Definition count_op (o : op) (tr : list event) : nat := count_occ op_eq_dec (ops tr) o.

(** Every call a program makes, the exits of its [with] blocks included,
    satisfies [P]. *)
Inductive every_call (P : forall X : Type, call X -> Prop) : forall A : Type, Prog A -> Prop :=
| every_ret (A : Type) (a : A) : every_call P (Ret a)
| every_raise (A : Type) (e : exn) : every_call P (Raise (A := A) e)
| every_perform (A X : Type) (c : call X) (k : X -> Prog A) :
    P X c -> (forall x, every_call P (k x)) -> every_call P (Call c k)
| every_finally (A B : Type) (body : Prog B) (exit : call unit) (k : B -> Prog A) :
    every_call P body -> P unit exit -> (forall b, every_call P (k b)) ->
    every_call P (Finally body exit k).

Definition trace_all (P : forall X : Type, call X -> Prop) (tr : list event) : Prop :=
  Forall (fun ev => P (ev_type ev) (ev_call ev)) tr.

(** A call that moves a tensor moves it to [device]. *)
Definition moves_to (device : string) (X : Type) (c : call X) : Prop :=
  match c with
  | To _ device' => device' = device
  | _ => True
  end.

(** How many calls of kind [o] a trace holds that returned. *)
Definition answered (o : op) (tr : list event) : nat :=
  count_op o (filter (fun e => match failure_of e with
                               | None => true
                               | Some _ => false
                               end) tr).

(** A program whose calls of kind [enter] each open a [with] block that a
    call of kind [exit] leaves, and that makes no other call of these
    kinds. *)
Inductive bracketed (enter exit : op) : forall A : Type, Prog A -> Prop :=
| bracketed_ret (A : Type) (a : A) : bracketed enter exit (Ret a)
| bracketed_raise (A : Type) (e : exn) : bracketed enter exit (Raise (A := A) e)
| bracketed_call (A X : Type) (c : call X) (k : X -> Prog A) :
    op_of c <> enter -> op_of c <> exit ->
    (forall x, bracketed enter exit (k x)) ->
    bracketed enter exit (Call c k)
| bracketed_with (A B X : Type) (c : call X) (body : X -> Prog B) (leave : call unit)
    (k : X -> B -> Prog A) :
    op_of c = enter -> op_of leave = exit ->
    (forall x, bracketed enter exit (body x)) ->
    (forall x b, bracketed enter exit (k x b)) ->
    bracketed enter exit (Call c (fun x => Finally (body x) leave (k x)))
| bracketed_finally (A B : Type) (body : Prog B) (leave : call unit) (k : B -> Prog A) :
    op_of leave <> enter -> op_of leave <> exit ->
    bracketed enter exit body ->
    (forall b, bracketed enter exit (k b)) ->
    bracketed enter exit (Finally body leave k).

(** The two kinds of block of the script. *)
Definition block_of (enter exit : op) : Prop :=
  (enter = OpTqdm /\ exit = OpTqdmClose) \/ (enter = OpNoGradEnter /\ exit = OpNoGradExit).

(** Whether an event is [torch.cuda.is_available()] answering [True]. *)
Definition says_cuda (e : event) : bool :=
  match e with
  | Ev c r =>
      match c in call X return outcome X -> bool with
      | CudaIsAvailable => fun r => match r with Returned b => b | Raised _ => false end
      | _ => fun _ => false
      end r
  end.

(** The value line 18 gives the global [device], read off the first event of
    a run of the module. *)
Definition global_device (tr : list event) : string :=
  match tr with
  | e :: _ => if says_cuda e then "cuda"%string else "cpu"%string
  | [] => "cpu"%string
  end.

(** The epochs of [range(epochs)] in which [main] evaluates and logs. *)
Definition logging_epochs (config : Config) : list Z :=
  filter (logs_at config) (range (epochs config)).

(** [ceil(epochs / log_every)], and [0] when there is no epoch. *)
Definition evaluations (config : Config) : nat :=
  Z.to_nat ((epochs config + log_every config - 1) / log_every config).

End Observations.

(** [config] with another [--log_every]. *)
Definition with_log_every (config : Config) (every : Z) : Config :=
  {| num_classes := num_classes config;
     num_samples := num_samples config;
     num_batches := num_batches config;
     batch_size := batch_size config;
     epochs := epochs config;
     log_every := every;
     path := path config |}.

(** [config] with another [--epochs]. *)
Definition with_epochs (config : Config) (n : Z) : Config :=
  {| num_classes := num_classes config;
     num_samples := num_samples config;
     num_batches := num_batches config;
     batch_size := batch_size config;
     epochs := n;
     log_every := log_every config;
     path := path config |}.

(** The toy library with loaders that never run dry: a pass yields as many
    batches as a loop can take. *)
Definition steady : library (D := Toy.domain) Z :=
  fun X c =>
    match c in call X return Z -> X * Z with
    | Tqdm _ total => fun s => (repeat Toy.batch (Z.to_nat (Z.max 1 (total + 2))), s)
    | c' => Toy.lib c'
    end.
(** ** Lemmas on runs *)

Unset Implicit Arguments.

Section RunFacts.
Context {D : Domain}.

Lemma run_bind (S A B : Type) (h : handler S) (p : Prog A) (f : A -> Prog B) (s : S) :
  run h (bind p f) s =
  match run h p s with
  | (Returned a, s1, tr) =>
      let '(o, s2, tr') := run h (f a) s1 in (o, s2, (tr ++ tr')%list)
  | (Raised e, s1, tr) => (Raised e, s1, tr)
  end.
Proof.
  revert s. induction p as [A a | A e | A X c k IH | A C body _ exit k IH];
    intros s; simpl.
  - destruct (run h (f a) s) as [[o s2] tr']. reflexivity.
  - reflexivity.
  - destruct (h X c s) as [[x | e] s1]; [ | reflexivity ].
    rewrite IH. destruct (run h (k x) s1) as [[[a | e] s2] tr]; [ | reflexivity ].
    destruct (run h (f a) s2) as [[o s3] tr']. reflexivity.
  - destruct (run h body s) as [[o s1] tr].
    destruct (h unit exit s1) as [[u | e'] s2]; [ | reflexivity ].
    destruct o as [b | e]; [ | reflexivity ].
    rewrite IH. destruct (run h (k b) s2) as [[[a | e] s3] tr1].
    + destruct (run h (f a) s3) as [[o s4] tr']. now rewrite <- app_assoc.
    + reflexivity.
Qed.

(** A [with] block in a library that returns: the manager is entered, the
    body runs, the manager is left, and the program goes on when the body
    returned. *)
Lemma run_with_bind (S X B C : Type) (lib : library S) (enter : call X)
    (exit : call unit) (body : X -> Prog B) (f : B -> Prog C) (s : S) :
  run (answer lib) (bind (with_ enter exit body) f) s =
  let '(x, s0) := lib X enter s in
  let '(o, s1, tr) := run (answer lib) (body x) s0 in
  let '(u, s2) := lib unit exit s1 in
  match o with
  | Returned b =>
      let '(o', s3, tr') := run (answer lib) (f b) s2 in
      (o', s3, Ev enter (Returned x) :: tr ++ Ev exit (Returned u) :: tr')
  | Raised e => (Raised e, s2, Ev enter (Returned x) :: tr ++ [Ev exit (Returned u)])
  end.
Proof.
  simpl. unfold answer at 1. destruct (lib X enter s) as [x s0].
  destruct (run (answer lib) (body x) s0) as [[o s1] tr].
  unfold answer at 1. destruct (lib unit exit s1) as [u s2].
  destruct o as [b | e]; [ | reflexivity ].
  destruct (run (answer lib) (f b) s2) as [[o' s3] tr']. reflexivity.
Qed.

Lemma run_perform_bind (S X B : Type) (lib : library S) (c : call X)
    (f : X -> Prog B) (s : S) :
  run (answer lib) (bind (perform c) f) s =
  let '(x, s1) := lib X c s in
  let '(o, s2, tr) := run (answer lib) (f x) s1 in
  (o, s2, Ev c (Returned x) :: tr).
Proof.
  simpl. unfold answer at 1. destruct (lib X c s) as [x s1]. reflexivity.
Qed.

Lemma run_perform (S X : Type) (lib : library S) (c : call X) (s : S) :
  run (answer lib) (perform c) s =
  let '(x, s1) := lib X c s in (Returned x, s1, [Ev c (Returned x)]).
Proof.
  simpl. unfold answer. destruct (lib X c s) as [x s1]. reflexivity.
Qed.


Lemma run_bind_ext (S A B : Type) (h : handler S) (p : Prog A) (f g : A -> Prog B) :
  (forall a s, run h (f a) s = run h (g a) s) ->
  forall s, run h (bind p f) s = run h (bind p g) s.
Proof.
  intros Hfg s. rewrite !run_bind.
  destruct (run h p s) as [[[a | e] s1] tr]; [ | reflexivity ].
  now rewrite Hfg.
Qed.

(** One call answered by a library that returns: name the answer and the next
    state. *)
Ltac answer_call lib :=
  rewrite run_perform_bind;
  match goal with
  | |- context [lib ?X ?c ?s] =>
      let x := fresh "x" in
      let s1 := fresh "s" in
      destruct (lib X c s) as [x s1];
      match type of x with
      | unit => destruct x
      | _ => idtac
      end
  end.

Lemma combine_firstn_length (A B : Type) (l : list A) (l' : list B) :
  combine (firstn (List.length l') l) l' = combine l l'.
Proof.
  revert l'. induction l as [ | a l IH]; intros [ | b l']; simpl; try reflexivity.
  now rewrite IH.
Qed.

Lemma steps_events_firstn (B : Type) (step : Batch -> B -> list event)
    (batches : list Batch) (answers : list B) :
  steps_events step (firstn (List.length answers) batches) answers
  = steps_events step batches answers.
Proof. unfold steps_events. now rewrite combine_firstn_length. Qed.

Lemma built_bind (calls exits : op -> bool) (raises : exn -> Prop) (A B : Type)
    (p : Prog A) (f : A -> Prog B) :
  built_from calls exits raises p ->
  (forall a, built_from calls exits raises (f a)) ->
  built_from calls exits raises (bind p f).
Proof.
  intros Hp. revert B f.
  induction Hp as [A a | A e He | A X c k Hc Hk IH | A C body exit k Hbody _ Hexit Hk IH];
    intros B f Hf; simpl.
  - apply Hf.
  - now constructor.
  - constructor; [ assumption | intros x; now apply IH ].
  - constructor; [ assumption | assumption | intros b; now apply IH ].
Qed.

Lemma built_perform (calls exits : op -> bool) (raises : exn -> Prop) (X : Type)
    (c : call X) :
  calls (op_of c) = true -> built_from calls exits raises (perform c).
Proof. intros Hc. constructor; [ assumption | intros x; constructor ]. Qed.

Lemma built_with (calls exits : op -> bool) (raises : exn -> Prop) (X B : Type)
    (enter : call X) (exit : call unit) (body : X -> Prog B) :
  calls (op_of enter) = true -> exits (op_of exit) = true ->
  (forall x, built_from calls exits raises (body x)) ->
  built_from calls exits raises (with_ enter exit body).
Proof.
  intros Henter Hexit Hbody. constructor; [ assumption | intros x ].
  constructor; [ apply Hbody | assumption | intros b; constructor ].
Qed.

Lemma built_weaken (calls calls' exits exits' : op -> bool) (raises raises' : exn -> Prop)
    (A : Type) (p : Prog A) :
  (forall o, calls o = true -> calls' o = true) ->
  (forall o, exits o = true -> exits' o = true) ->
  (forall e, raises e -> raises' e) ->
  built_from calls exits raises p -> built_from calls' exits' raises' p.
Proof.
  intros Hcalls Hexits Hraises Hp. induction Hp; constructor; auto.
Qed.

(** What a program is not built from does not show in its trace, whatever
    the handler answers. *)
Lemma built_trace (calls exits : op -> bool) (raises : exn -> Prop) (S A : Type)
    (h : handler S) (p : Prog A) :
  built_from calls exits raises p ->
  forall s, trace_only (fun o => calls o || exits o) (trace_of (run h p s)).
Proof.
  unfold trace_only, trace_of.
  induction 1 as [A a | A e He | A X c k Hc Hk IH
                  | A C body exit k Hbody IHbody Hexit Hk IH]; intros s; simpl.
  - constructor.
  - constructor.
  - assert (Hev : forall r, (calls (op_of (ev_call (Ev c r))) || exits (op_of (ev_call (Ev c r)))) = true)
      by (intros r; simpl; now rewrite Hc).
    destruct (h X c s) as [[x | e] s1].
    + specialize (IH x s1). destruct (run h (k x) s1) as [[o s2] tr].
      simpl in IH |- *. constructor; [ apply Hev | assumption ].
    + simpl. constructor; [ apply Hev | constructor ].
  - assert (Hev : forall r, (calls (op_of (ev_call (Ev exit r))) || exits (op_of (ev_call (Ev exit r)))) = true)
      by (intros r; simpl; rewrite Hexit; apply orb_true_r).
    specialize (IHbody s). destruct (run h body s) as [[o s1] tr]. simpl in IHbody.
    destruct (h unit exit s1) as [[u | e'] s2].
    + destruct o as [b | e].
      * specialize (IH b s2). destruct (run h (k b) s2) as [[o' s3] tr'].
        simpl in IH |- *.
        apply Forall_app. split; [ assumption | ]. constructor; [ apply Hev | assumption ].
      * simpl. apply Forall_app. split; [ assumption | ].
        constructor; [ apply Hev | constructor ].
    + simpl. apply Forall_app. split; [ assumption | ].
      constructor; [ apply Hev | constructor ].
Qed.

Ltac built_step :=
  first [ apply built_bind; [ apply built_perform; reflexivity | intros ? ]
        | apply built_perform; reflexivity
        | apply built_ret ].

Lemma train_loop_built (raises : exn -> Prop) (device : string) (model : Model)
    (loss_fn : Criterion) (optimizer : Optimizer) (num_batches : Z) (pbar : list Batch) :
  forall (batch_idx : Z) (avg_loss : list PyFloat),
    built_from train_op exit_op raises
      (train_loop device model loss_fn optimizer num_batches pbar batch_idx avg_loss).
Proof.
  induction pbar as [ | batch pbar IH]; intros batch_idx avg_loss; cbn [train_loop].
  - constructor.
  - destruct (b_train batch), (b_test batch). do 12 built_step.
    destruct (batch_idx >? num_batches); [ constructor | apply IH ].
Qed.

Lemma test_loop_built (raises : exn -> Prop) (device : string) (model : Model)
    (loss_fn : Criterion) (num_batches : Z) (pbar : list Batch) :
  forall (batch_idx : Z) (accuracy_list avg_loss : list PyFloat),
    built_from test_op exit_op raises
      (test_loop device model loss_fn num_batches pbar batch_idx accuracy_list avg_loss).
Proof.
  induction pbar as [ | batch pbar IH]; intros batch_idx accuracy_list avg_loss;
    cbn [test_loop].
  - constructor.
  - destruct (b_train batch), (b_test batch). do 14 built_step.
    destruct (batch_idx >? num_batches); [ constructor | apply IH ].
Qed.

(** [train] and [test] raise nothing by themselves. *)
Lemma train_built (device : string) (dataloader : Loader) (model : Model)
    (loss_fn : Criterion) (optimizer : Optimizer) (num_batches : Z) :
  built_from train_op exit_op (fun _ => False)
    (train device dataloader model loss_fn optimizer num_batches).
Proof.
  unfold train. apply built_bind; [ | intros; built_step ].
  apply built_with; [ reflexivity | reflexivity | intros pbar ].
  apply train_loop_built.
Qed.

Lemma test_built (device : string) (dataloader : Loader) (model : Model)
    (loss_fn : Criterion) (num_batches : Z) :
  built_from test_op exit_op (fun _ => False)
    (test device dataloader model loss_fn num_batches).
Proof.
  unfold test. apply built_bind; [ | intros; do 3 built_step ].
  apply built_with; [ reflexivity | reflexivity | intros _ ].
  apply built_with; [ reflexivity | reflexivity | intros pbar ].
  apply test_loop_built.
Qed.

Lemma forward_passes_app (tr tr' : list event) :
  forward_passes (tr ++ tr') = (forward_passes tr + forward_passes tr')%nat.
Proof. unfold forward_passes. now rewrite filter_app, length_app. Qed.

Lemma forward_passes_steps (B : Type) (step : Batch -> B -> list event)
    (batches : list Batch) (answers : list B) :
  (forall b a, forward_passes (step b a) = 1%nat) ->
  forward_passes (steps_events step batches answers)
  = Nat.min (List.length batches) (List.length answers).
Proof.
  intros Hstep. unfold steps_events. revert answers.
  induction batches as [ | b batches IH]; intros [ | a answers]; simpl; try reflexivity.
  rewrite forward_passes_app, Hstep, IH. reflexivity.
Qed.

Lemma ops_steps (B : Type) (step : Batch -> B -> list event) (step_ops : list op)
    (batches : list Batch) (answers : list B) :
  (forall b a, ops (step b a) = step_ops) ->
  ops (steps_events step batches answers)
  = concat (repeat step_ops (Nat.min (List.length batches) (List.length answers))).
Proof.
  intros Hstep. unfold steps_events, ops. revert answers.
  induction batches as [ | b batches IH]; intros [ | a answers]; simpl; try reflexivity.
  rewrite map_app, IH. f_equal. apply Hstep.
Qed.

(** The loops look at no more than the first [num_batches + 2] batches of a
    pass: what the pass would yield after them does not matter, whatever the
    handler. *)
Lemma train_loop_prefix (S : Type) (h : handler S) (device : string) (model : Model)
    (loss_fn : Criterion) (optimizer : Optimizer) (num_batches : Z)
    (pbar extra : list Batch) :
  forall (batch_idx : Z) (avg_loss : list PyFloat) (s : S),
    (Z.to_nat (Z.max 1 (num_batches + 2 - batch_idx)) <= length pbar)%nat ->
    run h (train_loop device model loss_fn optimizer num_batches (pbar ++ extra)
             batch_idx avg_loss) s
    = run h (train_loop device model loss_fn optimizer num_batches pbar
               batch_idx avg_loss) s.
Proof.
  induction pbar as [ | batch pbar IH]; intros batch_idx avg_loss s Hlen.
  - simpl in Hlen. lia.
  - cbn [app train_loop]. revert s.
    destruct (b_train batch) as [support_x support_y].
    destruct (b_test batch) as [query_x query_y].
    do 12 (apply run_bind_ext; intros ?).
    destruct (Z.gtb_spec batch_idx num_batches) as [Hgt | Hle]; [ reflexivity | ].
    intros s. apply IH. simpl in Hlen. lia.
Qed.

Lemma test_loop_prefix (S : Type) (h : handler S) (device : string) (model : Model)
    (loss_fn : Criterion) (num_batches : Z) (pbar extra : list Batch) :
  forall (batch_idx : Z) (accuracy_list avg_loss : list PyFloat) (s : S),
    (Z.to_nat (Z.max 1 (num_batches + 2 - batch_idx)) <= length pbar)%nat ->
    run h (test_loop device model loss_fn num_batches (pbar ++ extra)
             batch_idx accuracy_list avg_loss) s
    = run h (test_loop device model loss_fn num_batches pbar
               batch_idx accuracy_list avg_loss) s.
Proof.
  induction pbar as [ | batch pbar IH]; intros batch_idx accuracy_list avg_loss s Hlen.
  - simpl in Hlen. lia.
  - cbn [app test_loop]. revert s.
    destruct (b_train batch) as [support_x support_y].
    destruct (b_test batch) as [query_x query_y].
    do 14 (apply run_bind_ext; intros ?).
    destruct (Z.gtb_spec batch_idx num_batches) as [Hgt | Hle]; [ reflexivity | ].
    intros s. apply IH. simpl in Hlen. lia.
Qed.

(** A library in which only the calls of [writes_parameters] change the
    parameters leaves them alone in a program that makes none of these. *)
Lemma built_frame (S P : Type) (params : S -> P) (lib : library S)
    (calls exits : op -> bool) (raises : exn -> Prop) :
  (forall (X : Type) (c : call X) (s : S),
      writes_parameters (op_of c) = false -> params (snd (lib X c s)) = params s) ->
  (forall o, calls o || exits o = true -> writes_parameters o = false) ->
  forall (A : Type) (p : Prog A),
    built_from calls exits raises p ->
    forall s, params (state_of (run (answer lib) p s)) = params s.
Proof.
  intros Hlib Hops A p Hp. unfold state_of.
  induction Hp as [A a | A e He | A X c k Hc Hk IH
                   | A C body exit k Hbody IHbody Hexit Hk IH];
    intros s; simpl; try reflexivity.
  - unfold answer at 1. specialize (Hlib X c s).
    destruct (lib X c s) as [x s1]. specialize (IH x s1).
    destruct (run (answer lib) (k x) s1) as [[o s2] tr]. simpl in *.
    rewrite IH. apply Hlib, Hops. now rewrite Hc.
  - specialize (IHbody s). destruct (run (answer lib) body s) as [[o s1] tr].
    unfold answer at 1. specialize (Hlib unit exit s1).
    destruct (lib unit exit s1) as [u s2]. simpl in *.
    assert (Hs2 : params s2 = params s).
    { rewrite Hlib, IHbody; [ reflexivity | ]. apply Hops. rewrite Hexit. apply orb_true_r. }
    destruct o as [b | e]; [ | exact Hs2 ].
    specialize (IH b s2). destruct (run (answer lib) (k b) s2) as [[o' s3] tr'].
    simpl in *. now rewrite IH.
Qed.

Section Loops.
Variables (S : Type) (lib : library S).
Variables (device : string) (model : Model) (loss_fn : Criterion) (optimizer : Optimizer).
Variable num_batches : Z.

Lemma train_loop_run (pbar : list Batch) :
  forall (batch_idx : Z) (avg_loss : list PyFloat) (s : S),
  exists (answers : list train_answers) (s1 : S),
    List.length answers
      = Nat.min (List.length pbar) (Z.to_nat (Z.max 1 (num_batches + 2 - batch_idx)))
    /\ run (answer lib)
          (train_loop device model loss_fn optimizer num_batches pbar batch_idx avg_loss) s
       = (Returned (avg_loss ++ map ta_value answers)%list, s1,
          steps_events (train_step_events device model loss_fn optimizer) pbar answers).
Proof.
  induction pbar as [ | batch pbar' IH]; intros batch_idx avg_loss s.
  - exists [], s. split; [ reflexivity | ]. simpl. now rewrite app_nil_r.
  - cbn [train_loop].
    destruct (b_train batch) as [support_x support_y] eqn:Etrain.
    destruct (b_test batch) as [query_x query_y] eqn:Etest.
    do 12 answer_call lib.
    pose (a := {| ta_support_x := x; ta_support_y := x0; ta_query_x := x1;
                  ta_query_y := x2; ta_logits := x3; ta_loss := x4;
                  ta_detached := x5; ta_value := x6 |}).
    destruct (batch_idx >? num_batches) eqn:Ebreak.
    + exists [a], s11. split.
      * simpl List.length. apply Z.gtb_lt in Ebreak. lia.
      * unfold steps_events. simpl. rewrite combine_nil, Etrain, Etest. reflexivity.
    + destruct (IH (batch_idx + 1) (avg_loss ++ [x6])%list s11)
        as (answers & sN & Hlen & Hrun).
      exists (a :: answers), sN. split.
      * simpl List.length. rewrite Hlen.
        assert (batch_idx <= num_batches)
          by (destruct (Z.gtb_spec batch_idx num_batches); [ discriminate | lia ]).
        lia.
      * rewrite Hrun. unfold steps_events. simpl. rewrite Etrain, Etest.
        rewrite <- app_assoc. reflexivity.
Qed.

Lemma test_loop_run (pbar : list Batch) :
  forall (batch_idx : Z) (accuracy_list avg_loss : list PyFloat) (s : S),
  exists (answers : list test_answers) (s1 : S),
    List.length answers
      = Nat.min (List.length pbar) (Z.to_nat (Z.max 1 (num_batches + 2 - batch_idx)))
    /\ run (answer lib)
          (test_loop device model loss_fn num_batches pbar batch_idx accuracy_list avg_loss) s
       = (Returned ((accuracy_list ++ map te_accuracy answers)%list,
                    (avg_loss ++ map te_value answers)%list), s1,
          steps_events (test_step_events device model loss_fn) pbar answers).
Proof.
  induction pbar as [ | batch pbar' IH]; intros batch_idx accuracy_list avg_loss s.
  - exists [], s. split; [ reflexivity | ]. simpl. now rewrite !app_nil_r.
  - cbn [test_loop].
    destruct (b_train batch) as [support_x support_y] eqn:Etrain.
    destruct (b_test batch) as [query_x query_y] eqn:Etest.
    do 14 answer_call lib.
    pose (a := {| te_support_x := x; te_support_y := x0; te_query_x := x1;
                  te_query_y := x2; te_logits := x3; te_loss := x4;
                  te_detached := x5; te_value := x6; te_predictions := x7;
                  te_hits := x8; te_hits_float := x9; te_mean := x10;
                  te_accuracy := x11 |}).
    destruct (batch_idx >? num_batches) eqn:Ebreak.
    + exists [a], s13. split.
      * simpl List.length. apply Z.gtb_lt in Ebreak. lia.
      * unfold steps_events. simpl. rewrite combine_nil, Etrain, Etest. reflexivity.
    + destruct (IH (batch_idx + 1) (accuracy_list ++ [x11])%list
                   (avg_loss ++ [x6])%list s13)
        as (answers & sN & Hlen & Hrun).
      exists (a :: answers), sN. split.
      * simpl List.length. rewrite Hlen.
        assert (batch_idx <= num_batches)
          by (destruct (Z.gtb_spec batch_idx num_batches); [ discriminate | lia ]).
        lia.
      * rewrite Hrun. unfold steps_events. simpl. rewrite Etrain, Etest.
        rewrite <- !app_assoc. reflexivity.
Qed.

(** The run of [train]: one pass over the loader, the iterations, the bar
    closed, then the mean of the values that were collected. *)
Lemma train_run (dataloader : Loader) (s : S) :
  exists (answers : list train_answers) (mean : PyFloat) (s1 : S),
    List.length answers = iterations num_batches (List.length (yielded lib dataloader num_batches s))
    /\ run (answer lib) (train device dataloader model loss_fn optimizer num_batches) s
       = (Returned mean, s1,
          (Ev (Tqdm dataloader num_batches) (Returned (yielded lib dataloader num_batches s))
           :: steps_events (train_step_events device model loss_fn optimizer)
                (yielded lib dataloader num_batches s) answers
           ++ [Ev TqdmClose (Returned tt);
               Ev (NpMean (map ta_value answers)) (Returned mean)])%list).
Proof.
  unfold train, yielded. rewrite run_with_bind.
  destruct (lib _ (Tqdm dataloader num_batches) s) as [pbar s0]. simpl fst.
  destruct (train_loop_run pbar 0 [] s0) as (answers & s1 & Hlen & Hrun).
  rewrite Hrun. simpl app.
  destruct (lib unit TqdmClose s1) as [[] s2]. rewrite run_perform.
  destruct (lib _ (NpMean (map ta_value answers)) s2) as [mean s3].
  exists answers, mean, s3. split; [ | reflexivity ].
  rewrite Hlen. unfold iterations. now rewrite Z.sub_0_r.
Qed.

Lemma test_run (dataloader : Loader) (s : S) :
  exists (answers : list test_answers) (mean_accuracy mean_loss : PyFloat) (s1 : S),
    List.length answers
      = iterations num_batches
          (List.length (yielded lib dataloader num_batches (snd (lib _ NoGradEnter s))))
    /\ run (answer lib) (test device dataloader model loss_fn num_batches) s
       = (Returned (mean_accuracy, mean_loss), s1,
          (Ev NoGradEnter (Returned tt)
           :: Ev (Tqdm dataloader num_batches)
                 (Returned (yielded lib dataloader num_batches (snd (lib _ NoGradEnter s))))
           :: steps_events (test_step_events device model loss_fn)
                (yielded lib dataloader num_batches (snd (lib _ NoGradEnter s))) answers
           ++ [Ev TqdmClose (Returned tt);
               Ev NoGradExit (Returned tt);
               Ev (NpMean (map te_accuracy answers)) (Returned mean_accuracy);
               Ev (NpMean (map te_value answers)) (Returned mean_loss)])%list).
Proof.
  unfold test, yielded. rewrite run_with_bind.
  destruct (lib _ NoGradEnter s) as [[] s0]. simpl snd.
  change (with_ (Tqdm dataloader num_batches) TqdmClose
            (fun pbar => test_loop device model loss_fn num_batches pbar 0 [] []))
    with (bind (with_ (Tqdm dataloader num_batches) TqdmClose
                  (fun pbar => test_loop device model loss_fn num_batches pbar 0 [] []))
               (fun lists => Ret lists)).
  rewrite run_with_bind.
  destruct (lib _ (Tqdm dataloader num_batches) s0) as [pbar s1]. simpl fst.
  destruct (test_loop_run pbar 0 [] [] s1) as (answers & s2 & Hlen & Hrun).
  rewrite Hrun.
  destruct (lib unit TqdmClose s2) as [[] s3]. cbn [run].
  destruct (lib unit NoGradExit s3) as [[] s4].
  cbn [fst snd app].
  answer_call lib. rewrite run_perform_bind.
  destruct (lib _ (NpMean (map te_value answers)) s5) as [mean_loss s6].
  exists answers, x, mean_loss, s6. split.
  - rewrite Hlen. unfold iterations. now rewrite Z.sub_0_r.
  - cbn [run app]. rewrite <- app_assoc. reflexivity.
Qed.

End Loops.

(** *** Paths *)

Lemma append_assoc (a b c : string) : ((a ++ b) ++ c = a ++ (b ++ c))%string.
Proof. induction a as [ | ch a IH]; simpl; [ reflexivity | now rewrite IH ]. Qed.

Lemma components_from_slash (p tail component : string) :
  components_from (p ++ String "/" tail) component
  = components_from p component ++ components_from tail EmptyString.
Proof.
  revert component. induction p as [ | c p IH]; intros component; simpl.
  - reflexivity.
  - destruct (Ascii.eqb c "/").
    + now rewrite IH, app_assoc.
    + apply IH.
Qed.

(** The path that [main] checks names the entry [omniglot] of the entry
    [data] of the parent directory: the doubled slash counts as one. *)
Lemma omniglot_dir_components (parent_dir : string) :
  omniglot_dir (data_path_of parent_dir) = (parent_dir ++ "/data//omniglot")%string
  /\ path_components (omniglot_dir (data_path_of parent_dir))
     = path_components parent_dir ++ ["data"; "omniglot"]%string.
Proof.
  assert (H : omniglot_dir (data_path_of parent_dir)
              = (parent_dir ++ "/data//omniglot")%string)
    by (unfold omniglot_dir, data_path_of; now rewrite append_assoc).
  split; [ exact H | ].
  rewrite H. unfold path_components.
  exact (components_from_slash parent_dir "data//omniglot" EmptyString).
Qed.

(** *** What a trace writes, opens, asks for and checks *)



Lemma flat_map_none (A : Type) (f : event -> list A) (o0 : op) (P : op -> bool) :
  (forall e, op_of (ev_call e) <> o0 -> f e = []) ->
  P o0 = false ->
  forall tr, trace_only P tr -> flat_map f tr = [].
Proof.
  intros Hf HP tr Htr. induction Htr as [ | e tr He Htr IH]; simpl; [ reflexivity | ].
  rewrite IH, Hf; [ reflexivity | ]. intros Heq. rewrite Heq in He. congruence.
Qed.

Lemma scalar_of_other (e : event) : op_of (ev_call e) <> OpAddScalar -> scalar_of e = [].
Proof. destruct e as [X c r]. destruct c; simpl; intros H; first [ reflexivity | now destruct H ]. Qed.

Lemma writer_of_other (e : event) : op_of (ev_call e) <> OpSummaryWriter -> writer_of e = [].
Proof. destruct e as [X c r]. destruct c; simpl; intros H; first [ reflexivity | now destruct H ]. Qed.

Lemma dataset_of_other (e : event) : op_of (ev_call e) <> OpOmniglot -> dataset_of e = [].
Proof. destruct e as [X c r]. destruct c; simpl; intros H; first [ reflexivity | now destruct H ]. Qed.

Lemma path_check_of_other (e : event) :
  op_of (ev_call e) <> OpOsPathExists -> path_check_of e = [].
Proof. destruct e as [X c r]. destruct c; simpl; intros H; first [ reflexivity | now destruct H ]. Qed.

Lemma built_trace_only (P calls exits : op -> bool) (raises : exn -> Prop) (S A : Type)
    (h : handler S) (p : Prog A) :
  (forall o, calls o || exits o = true -> P o = true) ->
  built_from calls exits raises p ->
  forall s, trace_only P (trace_of (run h p s)).
Proof.
  intros HP Hp s. eapply Forall_impl; [ | exact (built_trace _ _ _ S A h p Hp s) ].
  intros e He. now apply HP.
Qed.

Lemma epoch_built (device : string) (config : Config) (writer : Writer)
    (trainloader testloader : Loader) (model : Model) (loss_fn : Criterion)
    (optimizer : Optimizer) (t : Z) :
  built_from epoch_op exit_op (fun e => e = ZeroDivisionError)
    (epoch device config writer trainloader testloader model loss_fn optimizer t).
Proof.
  unfold epoch. built_step.
  apply built_bind.
  { apply built_weaken with (calls := train_op) (exits := exit_op) (raises := fun _ => False);
      [ | auto | intros e [] | apply train_built ].
    intros o. destruct o; simpl; congruence. }
  intros train_loss. apply built_bind.
  { unfold py_mod. destruct (log_every config =? 0); now constructor. }
  intros r. destruct (r =? 0); [ | constructor ].
  apply built_bind.
  { apply built_weaken with (calls := test_op) (exits := exit_op) (raises := fun _ => False);
      [ | auto | intros e [] | apply test_built ].
    intros o. destruct o; simpl; congruence. }
  intros [test_accuracy test_loss]. do 4 built_step.
Qed.

Lemma for_each_built (calls exits : op -> bool) (raises : exn -> Prop) (ts : list Z)
    (body : Z -> Prog unit) :
  (forall t, built_from calls exits raises (body t)) ->
  built_from calls exits raises (for_each ts body).
Proof.
  intros Hbody. induction ts as [ | t ts IH]; cbn [for_each].
  - constructor.
  - apply built_bind; [ apply Hbody | intros _; apply IH ].
Qed.

Lemma main_built (device : string) (config : Config) :
  built_from (fun _ => true) exit_op (fun e => e = ZeroDivisionError) (main device config).
Proof.
  unfold main. cbv zeta. do 12 built_step.
  apply built_bind; [ apply built_perform; reflexivity | intros available ].
  apply built_bind.
  { destruct available; [ apply built_perform; reflexivity | constructor ]. }
  intros _. apply for_each_built. intros t.
  apply built_weaken with (calls := epoch_op) (exits := exit_op)
                          (raises := fun e => e = ZeroDivisionError); auto.
  apply epoch_built.
Qed.

Section MainRun.
Variables (S : Type) (lib : library S).
Variables (device : string) (config : Config) (a : setup_answers).

Let epoch_of : Z -> Prog unit :=
  epoch device config (sa_writer a) (sa_trainloader a) (sa_testloader a)
    (sa_model a) (sa_loss_fn a) (sa_optimizer a).

Lemma train_returns (dataloader : Loader) (model : Model) (loss_fn : Criterion)
    (optimizer : Optimizer) (num_batches : Z) (s : S) :
  exists mean s1 tr,
    run (answer lib) (train device dataloader model loss_fn optimizer num_batches) s
    = (Returned mean, s1, tr).
Proof.
  destruct (train_run S lib device model loss_fn optimizer num_batches dataloader s)
    as (answers & mean & s1 & _ & Hrun).
  rewrite Hrun. eauto.
Qed.

Lemma test_returns (dataloader : Loader) (model : Model) (loss_fn : Criterion)
    (num_batches : Z) (s : S) :
  exists mean_accuracy mean_loss s1 tr,
    run (answer lib) (test device dataloader model loss_fn num_batches) s
    = (Returned (mean_accuracy, mean_loss), s1, tr).
Proof.
  destruct (test_run S lib device model loss_fn num_batches dataloader s)
    as (answers & mean_accuracy & mean_loss & s1 & _ & Hrun).
  rewrite Hrun. eauto.
Qed.

(** An epoch with [log_every = 0]: the modulo raises after [train]. *)
Lemma epoch_run_zero (t : Z) (s : S) :
  log_every config = 0 ->
  exists tr s1,
    run (answer lib) (epoch_of t) s = (Raised ZeroDivisionError, s1, tr)
    /\ silent_epoch lib device config a t tr.
Proof.
  intros Hzero. unfold epoch_of, epoch. rewrite run_perform_bind.
  destruct (lib _ (Print (epoch_header t)) s) as [[] s0].
  rewrite run_bind.
  destruct (train_returns (sa_trainloader a) (sa_model a) (sa_loss_fn a)
              (sa_optimizer a) (num_batches config) s0) as (mean & s1 & tr & Hrun).
  rewrite Hrun. unfold py_mod. rewrite Hzero. simpl.
  exists (Ev (Print (epoch_header t)) (Returned tt) :: tr), s1. split.
  - now rewrite app_nil_r.
  - exists s0. now rewrite Hrun.
Qed.

(** An epoch with [log_every <> 0]. *)
Lemma epoch_run (t : Z) (s : S) :
  log_every config <> 0 ->
  exists tr s1,
    run (answer lib) (epoch_of t) s = (Returned tt, s1, tr)
    /\ epoch_trace lib device config a t tr.
Proof.
  intros Hnz. unfold epoch_of, epoch, epoch_trace. rewrite run_perform_bind.
  destruct (lib _ (Print (epoch_header t)) s) as [[] s0].
  rewrite run_bind.
  destruct (train_returns (sa_trainloader a) (sa_model a) (sa_loss_fn a)
              (sa_optimizer a) (num_batches config) s0) as (mean & s1 & tr & Hrun).
  rewrite Hrun. unfold py_mod.
  destruct (Z.eqb_spec (log_every config) 0) as [ | _ ]; [ contradiction | ].
  cbn [bind].
  destruct (t mod log_every config =? 0); cbv iota.
  - rewrite run_bind.
    destruct (test_returns (sa_testloader a) (sa_model a) (sa_loss_fn a)
                (num_batches config) s1) as (acc & loss & s2 & tr' & Hrun').
    rewrite Hrun'. do 3 answer_call lib. rewrite run_perform.
    destruct (lib _ (AddScalar (sa_writer a) "Meta-Test Accuracy" acc t) s5) as [[] s6].
    eexists _, s6. split; [ reflexivity | ].
    exists s0, mean, acc, loss. cbv zeta. rewrite Hrun. unfold state_of, result_of, trace_of.
    cbn [fst snd]. rewrite Hrun'. cbn [fst snd]. repeat split.
  - eexists _, s1. split; [ reflexivity | ].
    exists s0. rewrite Hrun. unfold trace_of. simpl. now rewrite app_nil_r.
Qed.

Lemma for_each_run (ts : list Z) :
  log_every config <> 0 ->
  forall s, exists trs s1,
    run (answer lib) (for_each ts epoch_of) s = (Returned tt, s1, concat trs)
    /\ Forall2 (epoch_trace lib device config a) ts trs.
Proof.
  intros Hnz. induction ts as [ | t ts IH]; intros s.
  - exists [], s. split; [ reflexivity | constructor ].
  - cbn [for_each]. rewrite run_bind.
    destruct (epoch_run t s Hnz) as (tr & s1 & Hrun & Htr). rewrite Hrun.
    destruct (IH s1) as (trs & s2 & Hrun' & Htrs). rewrite Hrun'.
    exists (tr :: trs), s2. split; [ reflexivity | constructor; assumption ].
Qed.

Lemma for_each_run_zero (t : Z) (ts : list Z) (s : S) :
  log_every config = 0 ->
  exists tr s1,
    run (answer lib) (for_each (t :: ts) epoch_of) s = (Raised ZeroDivisionError, s1, tr)
    /\ silent_epoch lib device config a t tr.
Proof.
  intros Hzero. cbn [for_each]. rewrite run_bind.
  destruct (epoch_run_zero t s Hzero) as (tr & s1 & Hrun & Htr). rewrite Hrun.
  exists tr, s1. split; [ reflexivity | assumption ].
Qed.

Lemma scalars_written_silent (t : Z) (tr : list event) :
  silent_epoch lib device config a t tr -> scalars_written tr = [].
Proof.
  intros (s0 & ->). unfold scalars_written. cbn [flat_map scalar_of ev_call app].
  apply (flat_map_none _ scalar_of OpAddScalar (fun o => train_op o || exit_op o)
           scalar_of_other eq_refl).
  apply built_trace with (raises := fun _ => False), train_built.
Qed.

Lemma scalars_written_logged (t : Z) (tr : list event) :
  logged_epoch lib device config a t tr ->
  scalars_written tr
  = [(sa_writer a, "Train Loss", t); (sa_writer a, "Test Loss", t);
     (sa_writer a, "Meta-Test Accuracy", t)]%string.
Proof.
  intros (s0 & train_loss & test_accuracy & test_loss & _ & _ & ->).
  unfold scalars_written. cbn [flat_map]. rewrite !flat_map_app.
  rewrite (flat_map_none _ scalar_of OpAddScalar (fun o => train_op o || exit_op o)
             scalar_of_other eq_refl)
    by (apply built_trace with (raises := fun _ => False), train_built).
  rewrite (flat_map_none _ scalar_of OpAddScalar (fun o => test_op o || exit_op o)
             scalar_of_other eq_refl)
    by (apply built_trace with (raises := fun _ => False), test_built).
  reflexivity.
Qed.

Lemma scalars_written_epochs (ts : list Z) (trs : list (list event)) :
  log_every config <> 0 ->
  Forall2 (epoch_trace lib device config a) ts trs ->
  scalars_written (concat trs)
  = flat_map (fun t => if logs_at config t
                       then [(sa_writer a, "Train Loss", t); (sa_writer a, "Test Loss", t);
                             (sa_writer a, "Meta-Test Accuracy", t)]%string
                       else []) ts.
Proof.
  intros Hnz Htrs. induction Htrs as [ | t tr ts trs Htr Htrs IH]; [ reflexivity | ].
  cbn [concat flat_map]. unfold scalars_written in *. rewrite flat_map_app, IH.
  f_equal. unfold epoch_trace in Htr. unfold logs_at.
  destruct (Z.eqb_spec (log_every config) 0) as [ | _ ]; [ contradiction | ].
  cbn [negb andb].
  destruct (t mod log_every config =? 0).
  - now apply (scalars_written_logged t).
  - now apply (scalars_written_silent t).
Qed.

(** The trace of the loop over the epochs. *)
Lemma epochs_run (s : S) :
  let r := run (answer lib) (for_each (range (epochs config)) epoch_of) s in
  trace_only epoch_op (trace_of r)
  /\ (log_every config <> 0 ->
      result_of r = Returned tt
      /\ exists trs, trace_of r = concat trs
                     /\ Forall2 (epoch_trace lib device config a) (range (epochs config)) trs)
  /\ (log_every config = 0 ->
      (epochs config <= 0 -> result_of r = Returned tt /\ trace_of r = [])
      /\ (0 < epochs config ->
          result_of r = Raised ZeroDivisionError
          /\ silent_epoch lib device config a 0 (trace_of r))).
Proof.
  cbv zeta. split; [ | split ].
  - apply built_trace_only
      with (calls := epoch_op) (exits := exit_op) (raises := fun e => e = ZeroDivisionError).
    + intros o. destruct o; simpl; congruence.
    + apply for_each_built. intros t. apply epoch_built.
  - intros Hnz.
    destruct (for_each_run (range (epochs config)) Hnz s) as (trs & s1 & Hrun & Htrs).
    rewrite Hrun. split; [ reflexivity | ]. exists trs. split; [ reflexivity | assumption ].
  - intros Hzero. split.
    + intros Hle. unfold range.
      replace (Z.to_nat (epochs config)) with 0%nat by lia. split; reflexivity.
    + intros Hlt. unfold range.
      destruct (Z.to_nat (epochs config)) as [ | n] eqn:En; [ lia | ].
      cbn [seq map].
      destruct (for_each_run_zero (Z.of_nat 0) (map Z.of_nat (seq 1 n)) s Hzero)
        as (tr & s1 & Hrun & Htr).
      rewrite Hrun. split; [ reflexivity | exact Htr ].
Qed.

End MainRun.

(** The run of [main]: the set-up, then the epochs. *)
Lemma main_run (S : Type) (lib : library S) (device : string) (config : Config) (s : S) :
  exists (a : setup_answers) (s0 : S),
    run (answer lib) (main device config) s
    = (let '(o, s1, tr) :=
         run (answer lib)
           (for_each (range (epochs config))
              (epoch device config (sa_writer a) (sa_trainloader a) (sa_testloader a)
                 (sa_model a) (sa_loss_fn a) (sa_optimizer a))) s0 in
       (o, s1, setup_events config a ++ tr)).
Proof.
  unfold main. cbv zeta. do 13 answer_call lib.
  rewrite run_bind.
  pose (a := fun found cuda =>
          {| sa_writer := x; sa_joined := x0; sa_parent_dir := x1; sa_found := found;
             sa_train_dataset := x3; sa_test_dataset := x4; sa_trainloader := x5;
             sa_testloader := x6; sa_model := x7; sa_parameters := x8;
             sa_optimizer := x9; sa_loss_fn := x10; sa_cuda := cuda |}).
  destruct x2 as [ | ]; destruct x11 as [ | ].
  - rewrite run_perform. destruct (lib _ (ModelCuda x7) s12) as [[] s13].
    exists (a true true), s13.
    simpl. destruct (run (answer lib) _ s13) as [[o s14] tr]. reflexivity.
  - exists (a true false), s12.
    simpl. destruct (run (answer lib) _ s12) as [[o s14] tr]. reflexivity.
  - rewrite run_perform. destruct (lib _ (ModelCuda x7) s12) as [[] s13].
    exists (a false true), s13.
    simpl. destruct (run (answer lib) _ s13) as [[o s14] tr]. reflexivity.
  - exists (a false false), s12.
    simpl. destruct (run (answer lib) _ s12) as [[o s14] tr]. reflexivity.
Qed.

(** The result and the trace of [main]: those of the loop over the epochs,
    after the events of the set-up. *)
Lemma main_result_trace (S : Type) (lib : library S) (device : string)
    (config : Config) (s : S) :
  exists (a : setup_answers) (s0 : S),
    let r := run (answer lib)
               (for_each (range (epochs config))
                  (epoch device config (sa_writer a) (sa_trainloader a) (sa_testloader a)
                     (sa_model a) (sa_loss_fn a) (sa_optimizer a))) s0 in
    result_of (run (answer lib) (main device config) s) = result_of r
    /\ trace_of (run (answer lib) (main device config) s)
       = setup_events config a ++ trace_of r.
Proof.
  destruct (main_run S lib device config s) as (a & s0 & Hrun).
  exists a, s0. cbv zeta. rewrite Hrun.
  destruct (run (answer lib) _ s0) as [[o s1] tr]. split; reflexivity.
Qed.

(** *** Failures *)

Lemma split_middle (A : Type) (l1 l2 m1 m2 : list A) (x y : A) :
  l1 ++ x :: l2 = m1 ++ y :: m2 ->
  (exists m, m1 = l1 ++ x :: m /\ l2 = m ++ y :: m2)
  \/ (l1 = m1 /\ x = y /\ l2 = m2)
  \/ (exists m, l1 = m1 ++ y :: m /\ m2 = m ++ x :: l2).
Proof.
  revert m1. induction l1 as [ | a l1 IH]; intros [ | b m1]; simpl; intros Heq.
  - injection Heq as Hx Hl. right. left. auto.
  - injection Heq as Hx Hl. left. exists m1. now subst.
  - injection Heq as Hx Hl. right. right. exists l1. now subst.
  - injection Heq as Hx Hl.
    destruct (IH m1 Hl) as [(m & H1 & H2) | [(H1 & H2 & H3) | (m & H1 & H2)]].
    + left. exists m. now subst.
    + right. left. now subst.
    + right. right. exists m. now subst.
Qed.

Lemma split_last (A : Type) (l1 l2 m : list A) (x y : A) :
  l1 ++ x :: l2 = m ++ [y] ->
  (exists l, m = l1 ++ x :: l /\ l2 = l ++ [y]) \/ (l1 = m /\ x = y /\ l2 = []).
Proof.
  intros Heq. destruct (split_middle A l1 l2 m [] x y Heq)
    as [(l & H1 & H2) | [(H1 & H2 & H3) | (l & H1 & H2)]].
  - left. now exists l.
  - right. auto.
  - destruct l; discriminate H2.
Qed.

Lemma run_unhandled (calls : op -> bool) (raises : exn -> Prop) (S A : Type)
    (h : handler S) (p : Prog A) :
  built_from calls exit_op raises p -> forall s, unhandled (run h p s).
Proof.
  unfold unhandled, result_of, trace_of, trace_only.
  induction 1 as [A a | A e0 He0 | A X c k Hc Hk IH
                  | A C body exit k Hbody IHbody Hexit Hk IH];
    intros s tr1 ev tr2 e; simpl.
  - intros Heq. destruct tr1; discriminate Heq.
  - intros Heq. destruct tr1; discriminate Heq.
  - destruct (h X c s) as [[x | e0] s1].
    + specialize (IH x s1). destruct (run h (k x) s1) as [[o s2] tr]. simpl in IH |- *.
      intros Heq Hfail. destruct tr1 as [ | ev1 tr1]; simpl in Heq.
      * injection Heq as Hev _. subst ev. discriminate Hfail.
      * injection Heq as _ Heq. exact (IH tr1 ev tr2 e Heq Hfail).
    + simpl. intros Heq Hfail. destruct tr1 as [ | ev1 tr1]; simpl in Heq.
      * injection Heq as Hev Htr2. subst ev tr2. simpl in Hfail. injection Hfail as <-.
        split; [ now exists e0 | ]. split; [ constructor | reflexivity ].
      * injection Heq as _ Heq. destruct tr1; discriminate Heq.
  - specialize (IHbody s). destruct (run h body s) as [[o s1] tr]. simpl in IHbody.
    assert (Hexits : forall l r, Forall (fun e1 => exit_op (op_of (ev_call e1)) = true) l ->
                       Forall (fun e1 => exit_op (op_of (ev_call e1)) = true)
                              (l ++ [Ev exit r])).
    { intros l r Hl. apply Forall_app. split; [ assumption | ].
      constructor; [ exact Hexit | constructor ]. }
    destruct (h unit exit s1) as [[u | e'] s2].
    + destruct o as [b | e0].
      * specialize (IH b s2). destruct (run h (k b) s2) as [[o' s3] tr']. simpl in IH |- *.
        intros Heq Hfail.
        destruct (split_middle _ _ _ _ _ _ _ Heq)
          as [(m & H1 & H2) | [(H1 & H2 & H3) | (m & H1 & H2)]].
        -- exact (IH m ev tr2 e H2 Hfail).
        -- subst ev. discriminate Hfail.
        -- destruct (IHbody tr1 ev m e H1 Hfail) as ((e1 & He1) & _). discriminate He1.
      * simpl. intros Heq Hfail.
        destruct (split_last _ _ _ _ _ _ (eq_sym Heq)) as [(l & H1 & H2) | (H1 & H2 & H3)];
          [ | subst ev; discriminate Hfail ].
        destruct (IHbody tr1 ev l e H1 Hfail) as (_ & Hl & Hsame).
        split; [ now exists e0 | ]. subst tr2. split; [ now apply Hexits | ].
        intros Hquiet. apply Forall_app in Hquiet.
        injection (Hsame (proj1 Hquiet)) as ->. reflexivity.
    + simpl. intros Heq Hfail.
      destruct (split_last _ _ _ _ _ _ (eq_sym Heq)) as [(l & H1 & H2) | (H1 & H2 & H3)].
      * destruct (IHbody tr1 ev l e H1 Hfail) as (_ & Hl & _).
        split; [ now exists e' | ]. subst tr2. split; [ now apply Hexits | ].
        intros Hquiet. apply Forall_app in Hquiet. destruct Hquiet as (_ & Hlast).
        inversion Hlast as [ | ? ? Hq _]. discriminate Hq.
      * subst ev tr2. simpl in Hfail. injection Hfail as <-.
        split; [ now exists e' | ]. split; [ constructor | reflexivity ].
Qed.

Lemma run_raised_source (calls exits : op -> bool) (raises : exn -> Prop) (S A : Type)
    (h : handler S) (p : Prog A) :
  built_from calls exits raises p ->
  forall s e, result_of (run h p s) = Raised e ->
              raised_by_library (run h p s) e \/ raises e.
Proof.
  unfold raised_by_library, result_of, trace_of.
  induction 1 as [A a | A e0 He0 | A X c k Hc Hk IH
                  | A C body exit k Hbody IHbody Hexit Hk IH];
    intros s e; simpl.
  - discriminate.
  - intros [= <-]. now right.
  - destruct (h X c s) as [[x | e0] s1].
    + specialize (IH x s1 e).
      destruct (run h (k x) s1) as [[o s2] tr]. simpl in *.
      intros Ho. destruct (IH Ho) as [(ev & Hin & Hev) | HQ]; [ left | now right ].
      exists ev. split; [ now right | assumption ].
    + simpl. intros [= <-]. left. exists (Ev c (Raised e0)). split; [ now left | reflexivity ].
  - specialize (IHbody s e). destruct (run h body s) as [[o s1] tr]. simpl in IHbody.
    destruct (h unit exit s1) as [[u | e'] s2].
    + destruct o as [b | e0].
      * specialize (IH b s2 e). destruct (run h (k b) s2) as [[o' s3] tr']. simpl in *.
        intros Ho. destruct (IH Ho) as [(ev & Hin & Hev) | HQ]; [ left | now right ].
        exists ev. split; [ | assumption ]. apply in_or_app. right. now right.
      * simpl. intros [= <-]. destruct (IHbody eq_refl) as [(ev & Hin & Hev) | HQ];
          [ left | now right ].
        exists ev. split; [ | assumption ]. apply in_or_app. now left.
    + simpl. intros [= <-]. left. exists (Ev exit (Raised e')).
      split; [ | reflexivity ]. apply in_or_app. right. now left.
Qed.

End RunFacts.

(** ** The loops of [train] and [test] *)

Section LoopTheorems.
Context {D : Domain}.
Variables (S : Type) (lib : library S).
Variables (device : string) (model : Model) (loss_fn : Criterion) (optimizer : Optimizer).

(** C1.  [train] returns what [np.mean] answers on the list of the values
    [loss.detach().item()] of the batches it processed, in the order of the
    loop.  [test] returns the pair of the mean of the per-batch accuracies and
    the mean of the per-batch losses, the accuracy of a batch being the value
    of the mean of the 0/1 tensor [argmax(logits, dim=1) == query_y]. *)
Theorem train_test_return_means (dataloader : Loader) (num_batches : Z) (s : S) :
  (exists (answers : list train_answers) (mean : PyFloat),
      result_of (run (answer lib)
                   (train device dataloader model loss_fn optimizer num_batches) s)
      = Returned mean
      /\ trace_of (run (answer lib)
                     (train device dataloader model loss_fn optimizer num_batches) s)
         = (Ev (Tqdm dataloader num_batches)
               (Returned (yielded lib dataloader num_batches s))
            :: steps_events (train_step_events device model loss_fn optimizer)
                 (yielded lib dataloader num_batches s) answers
            ++ [Ev TqdmClose (Returned tt);
                Ev (NpMean (map ta_value answers)) (Returned mean)])%list
      /\ length answers
         = iterations num_batches (length (yielded lib dataloader num_batches s)))
  /\ (let batches := yielded lib dataloader num_batches (snd (lib _ NoGradEnter s)) in
      exists (answers : list test_answers) (mean_accuracy mean_loss : PyFloat),
        result_of (run (answer lib) (test device dataloader model loss_fn num_batches) s)
        = Returned (mean_accuracy, mean_loss)
        /\ trace_of (run (answer lib) (test device dataloader model loss_fn num_batches) s)
           = (Ev NoGradEnter (Returned tt)
              :: Ev (Tqdm dataloader num_batches) (Returned batches)
              :: steps_events (test_step_events device model loss_fn) batches answers
              ++ [Ev TqdmClose (Returned tt);
                  Ev NoGradExit (Returned tt);
                  Ev (NpMean (map te_accuracy answers)) (Returned mean_accuracy);
                  Ev (NpMean (map te_value answers)) (Returned mean_loss)])%list
        /\ length answers = iterations num_batches (length batches)).
Proof.
  split.
  - destruct (train_run S lib device model loss_fn optimizer num_batches dataloader s)
      as (answers & mean & s1 & Hlen & Hrun).
    exists answers, mean. rewrite Hrun. auto.
  - destruct (test_run S lib device model loss_fn num_batches dataloader s)
      as (answers & mean_accuracy & mean_loss & s1 & Hlen & Hrun).
    exists answers, mean_accuracy, mean_loss. rewrite Hrun. auto.
Qed.

(** C2.  With [num_batches >= 0], [train] and [test] process the first
    [num_batches + 2] batches of the pass, indices [0] to [num_batches + 1],
    and all of them when the pass yields fewer: the loop breaks after the
    batch whose index exceeds [num_batches]. *)
Theorem loops_process_num_batches_plus_two (dataloader : Loader) (num_batches : Z) (s : S) :
  0 <= num_batches ->
  (let batches := yielded lib dataloader num_batches s in
   let n := Nat.min (length batches) (Z.to_nat (num_batches + 2)) in
   let tr := trace_of (run (answer lib)
                         (train device dataloader model loss_fn optimizer num_batches) s) in
   exists (answers : list train_answers) (mean : PyFloat),
     length answers = n
     /\ tr = (Ev (Tqdm dataloader num_batches) (Returned batches)
              :: steps_events (train_step_events device model loss_fn optimizer)
                   (firstn n batches) answers
              ++ [Ev TqdmClose (Returned tt);
                  Ev (NpMean (map ta_value answers)) (Returned mean)])%list
     /\ forward_passes tr = n)
  /\ (let batches := yielded lib dataloader num_batches (snd (lib _ NoGradEnter s)) in
      let n := Nat.min (length batches) (Z.to_nat (num_batches + 2)) in
      let tr := trace_of (run (answer lib)
                            (test device dataloader model loss_fn num_batches) s) in
      exists (answers : list test_answers) (mean_accuracy mean_loss : PyFloat),
        length answers = n
        /\ tr = (Ev NoGradEnter (Returned tt)
                 :: Ev (Tqdm dataloader num_batches) (Returned batches)
                 :: steps_events (test_step_events device model loss_fn)
                      (firstn n batches) answers
                 ++ [Ev TqdmClose (Returned tt);
                     Ev NoGradExit (Returned tt);
                     Ev (NpMean (map te_accuracy answers)) (Returned mean_accuracy);
                     Ev (NpMean (map te_value answers)) (Returned mean_loss)])%list
        /\ forward_passes tr = n).
Proof.
  intros Hnb.
  assert (Hiter : forall L, iterations num_batches L = Nat.min L (Z.to_nat (num_batches + 2)))
    by (intros L; unfold iterations; now rewrite Z.max_r by lia).
  split; cbv zeta.
  - destruct (train_run S lib device model loss_fn optimizer num_batches dataloader s)
      as (answers & mean & s1 & Hlen & Hrun).
    rewrite Hiter in Hlen. exists answers, mean. rewrite Hrun. unfold trace_of. simpl snd.
    rewrite <- Hlen, steps_events_firstn. repeat split.
    change (forward_passes
              ([Ev (Tqdm dataloader num_batches)
                   (Returned (yielded lib dataloader num_batches s))]
               ++ steps_events (train_step_events device model loss_fn optimizer)
                    (yielded lib dataloader num_batches s) answers
               ++ [Ev TqdmClose (Returned tt);
                   Ev (NpMean (map ta_value answers)) (Returned mean)])
            = length answers).
    rewrite !forward_passes_app, forward_passes_steps by reflexivity.
    unfold forward_passes at 1 2. simpl. lia.
  - destruct (test_run S lib device model loss_fn num_batches dataloader s)
      as (answers & mean_accuracy & mean_loss & s1 & Hlen & Hrun).
    rewrite Hiter in Hlen. exists answers, mean_accuracy, mean_loss.
    rewrite Hrun. unfold trace_of. simpl snd.
    rewrite <- Hlen, steps_events_firstn. repeat split.
    set (batches := yielded lib dataloader num_batches (snd (lib _ NoGradEnter s))) in *.
    change (forward_passes
              ([Ev NoGradEnter (Returned tt);
                Ev (Tqdm dataloader num_batches) (Returned batches)]
               ++ steps_events (test_step_events device model loss_fn) batches answers
               ++ [Ev TqdmClose (Returned tt);
                   Ev NoGradExit (Returned tt);
                   Ev (NpMean (map te_accuracy answers)) (Returned mean_accuracy);
                   Ev (NpMean (map te_value answers)) (Returned mean_loss)])
            = length answers).
    rewrite !forward_passes_app, forward_passes_steps by reflexivity.
    unfold forward_passes at 1 2. simpl. lia.
Qed.

(** C3.  The calls of [train] are one pass over the loader, then for each
    processed batch, in this order: [model.zero_grad()], the four tensors of
    the batch moved to the device, the forward pass on the moved support and
    query inputs, the loss of the logits against the moved query labels, its
    detached value, [optimizer.zero_grad()], [loss.backward()] and
    [optimizer.step()]; then the bar is closed and [np.mean] is called.  The
    step of a batch comes after the loss of that batch. *)
Theorem train_step_order (dataloader : Loader) (num_batches : Z) (s : S) :
  let batches := yielded lib dataloader num_batches s in
  let tr := trace_of (run (answer lib)
                        (train device dataloader model loss_fn optimizer num_batches) s) in
  exists (answers : list train_answers) (mean : PyFloat),
    length answers = iterations num_batches (length batches)
    /\ tr = (Ev (Tqdm dataloader num_batches) (Returned batches)
             :: steps_events (train_step_events device model loss_fn optimizer)
                  batches answers
             ++ [Ev TqdmClose (Returned tt);
                 Ev (NpMean (map ta_value answers)) (Returned mean)])%list
    /\ ops tr
       = (OpTqdm
          :: concat (repeat [OpModelZeroGrad; OpTo; OpTo; OpTo; OpTo; OpForward;
                             OpLossFn; OpDetach; OpItem; OpOptimizerZeroGrad;
                             OpBackward; OpOptimizerStep]
                            (iterations num_batches (length batches)))
          ++ [OpTqdmClose; OpNpMean])%list.
Proof.
  cbv zeta.
  destruct (train_run S lib device model loss_fn optimizer num_batches dataloader s)
    as (answers & mean & s1 & Hlen & Hrun).
  exists answers, mean. rewrite Hrun. unfold trace_of. simpl snd. repeat split.
  - assumption.
  - unfold ops at 1. simpl map. rewrite map_app. fold (ops (steps_events
      (train_step_events device model loss_fn optimizer)
      (yielded lib dataloader num_batches s) answers)).
    rewrite (ops_steps _ _ train_step_ops) by reflexivity.
    rewrite Hlen. unfold iterations at 1.
    rewrite Nat.min_r by (unfold iterations; lia). reflexivity.
Qed.

(** C7.  In a library where parameters are written only by building the
    network, moving it to the GPU and stepping an optimizer, [test] returns
    with every parameter as it was: between [torch.no_grad()] being entered
    and left it makes one pass over the loader and, per batch, the calls of
    [test_step_ops], none of which is a backward pass or an optimizer step. *)
Theorem test_preserves_parameters (P : Type) (params : S -> P)
    (dataloader : Loader) (num_batches : Z) (s : S) :
  (forall (X : Type) (c : call X) (s0 : S),
      writes_parameters (op_of c) = false -> params (snd (lib X c s0)) = params s0) ->
  let r := run (answer lib) (test device dataloader model loss_fn num_batches) s in
  params (state_of r) = params s
  /\ (exists v, result_of r = Returned v)
  /\ (exists n : nat,
        ops (trace_of r)
        = (OpNoGradEnter :: OpTqdm
           :: concat (repeat [OpModelZeroGrad; OpTo; OpTo; OpTo; OpTo; OpForward;
                              OpLossFn; OpDetach; OpItem; OpArgmax; OpTensorEq;
                              OpToFloat; OpTorchMean; OpItem] n)
           ++ [OpTqdmClose; OpNoGradExit; OpNpMean; OpNpMean])%list).
Proof.
  intros Hlib. cbv zeta. split; [ | split ].
  - apply (built_frame S P params lib test_op exit_op (fun _ => False) Hlib);
      [ | apply test_built ].
    intros o. destruct o; simpl; congruence.
  - destruct (test_run S lib device model loss_fn num_batches dataloader s)
      as (answers & mean_accuracy & mean_loss & s1 & Hlen & Hrun).
    rewrite Hrun. eexists. reflexivity.
  - destruct (test_run S lib device model loss_fn num_batches dataloader s)
      as (answers & mean_accuracy & mean_loss & s1 & Hlen & Hrun).
    rewrite Hrun. unfold trace_of. simpl snd.
    exists (Nat.min
              (length (yielded lib dataloader num_batches (snd (lib _ NoGradEnter s))))
              (length answers)).
    unfold ops at 1. simpl map. rewrite map_app.
    fold (ops (steps_events (test_step_events device model loss_fn)
                 (yielded lib dataloader num_batches (snd (lib _ NoGradEnter s))) answers)).
    rewrite (ops_steps _ _ test_step_ops) by reflexivity. reflexivity.
Qed.

End LoopTheorems.

(** The small library keeps the contract on parameters. *)
Lemma toy_parameter_contract (X : Type) (c : call (D := Toy.domain) X) (s : Z) :
  writes_parameters (op_of c) = false -> snd (Toy.lib c s) = s.
Proof. destruct c; simpl; intros H; first [ reflexivity | discriminate H ]. Qed.

(** On the small library: with [num_batches = 1], three batches of a pass of
    five are processed, and both batches of a pass of two. *)
Lemma loops_process_num_batches_plus_two_witness :
  0 <= 1
  /\ forward_passes
       (trace_of (run (answer Toy.lib)
                    (train (D := Toy.domain) "cpu" 5%nat tt tt tt 1) 0)) = 3%nat
  /\ forward_passes
       (trace_of (run (answer Toy.lib)
                    (test (D := Toy.domain) "cpu" 2%nat tt tt 1) 0)) = 2%nat.
Proof.
  split; [ lia | ].
  split.
  - destruct (loops_process_num_batches_plus_two (D := Toy.domain) Z Toy.lib
                "cpu" tt tt tt 5%nat 1 0 ltac:(lia)) as [(answers & mean & _ & _ & H) _].
    exact H.
  - destruct (loops_process_num_batches_plus_two (D := Toy.domain) Z Toy.lib
                "cpu" tt tt tt 2%nat 1 0 ltac:(lia)) as [_ (answers & a & l & _ & _ & H)].
    exact H.
Defined.

(** On the small library: [test] leaves the parameter at [7]. *)
Lemma test_preserves_parameters_witness :
  state_of (run (answer Toy.lib) (test (D := Toy.domain) "cpu" 5%nat tt tt 1) 7) = 7.
Proof.
  exact (proj1 (test_preserves_parameters (D := Toy.domain) Z Toy.lib "cpu" tt tt
                  Z (fun s => s) 5%nat 1 7
                  (fun X c s => toy_parameter_contract X c s))).
Defined.

(** *** The loops on the small library: five batches per pass and
    [num_batches = 1], so three batches are processed *)

Example train_toy_ops :
  ops (trace_of (run (answer Toy.lib) (train (D := Toy.domain) "cpu" 5%nat tt tt tt 1) 0))
  = (OpTqdm :: concat (repeat train_step_ops 3) ++ [OpTqdmClose; OpNpMean])%list.
Proof. reflexivity. Qed.

Example train_toy_mean :
  run (answer Toy.lib) (train (D := Toy.domain) "cpu" 5%nat tt tt tt 1) 0
  = (Returned (3 # 1)%Q, 3,
     trace_of (run (answer Toy.lib) (train (D := Toy.domain) "cpu" 5%nat tt tt tt 1) 0)).
Proof. reflexivity. Qed.

Example test_toy_ops :
  ops (trace_of (run (answer Toy.lib) (test (D := Toy.domain) "cpu" 5%nat tt tt 1) 0))
  = (OpNoGradEnter :: OpTqdm :: concat (repeat test_step_ops 3)
       ++ [OpTqdmClose; OpNoGradExit; OpNpMean; OpNpMean])%list.
Proof. reflexivity. Qed.

Example train_toy_negative_num_batches :
  forward_passes
    (trace_of (run (answer Toy.lib) (train (D := Toy.domain) "cpu" 5%nat tt tt tt (-7)) 0))
  = 1%nat.
Proof. reflexivity. Qed.

(** ** [main] *)

Section MainTheorems.
Context {D : Domain}.
Variables (S : Type) (lib : library S).
Variable device : string.

(** C4.  [main] checks once whether a path exists: the entry [omniglot] of
    the entry [data] of the directory that [os.path.abspath] returns for the
    parent of [--path].  It builds two datasets, the meta-train and the
    meta-val one, and passes [download=True] to both exactly when the check
    answered that the path does not exist. *)
Theorem main_downloads_iff_missing (config : Config) (s : S) :
  let tr := trace_of (run (answer lib) (main device config) s) in
  exists (a : setup_answers) (rest : list event),
    tr = setup_events config a ++ rest
    /\ firstn 3 (skipn 1 tr)
       = [ Ev (OsPathJoin (path config) "..") (Returned (sa_joined a));
           Ev (OsPathAbspath (sa_joined a)) (Returned (sa_parent_dir a));
           Ev (OsPathExists (sa_parent_dir a ++ "/data//omniglot"))
              (Returned (sa_found a)) ]
    /\ path_checks tr
       = [((sa_parent_dir a ++ "/data//omniglot")%string, Returned (sa_found a))]
    /\ path_components (sa_parent_dir a ++ "/data//omniglot")
       = path_components (sa_parent_dir a) ++ ["data"; "omniglot"]%string
    /\ datasets_requested tr
       = [ ((sa_parent_dir a ++ "/data/")%string, Some true, None, negb (sa_found a));
           ((sa_parent_dir a ++ "/data/")%string, None, Some true, negb (sa_found a)) ].
Proof.
  cbv zeta.
  destruct (main_result_trace S lib device config s) as (a & s0 & _ & Htr).
  destruct (epochs_run S lib device config a s0) as (Honly & _).
  cbv zeta in *. rewrite Htr. eexists a, _.
  destruct (omniglot_dir_components (sa_parent_dir a)) as (Hdir & Hcomponents).
  split; [ reflexivity | ]. split; [ | split; [ | split ] ].
  - unfold setup_events. cbv zeta. rewrite Hdir. reflexivity.
  - unfold path_checks. rewrite flat_map_app.
    rewrite (flat_map_none _ path_check_of OpOsPathExists epoch_op
               path_check_of_other eq_refl _ Honly).
    unfold setup_events. cbv zeta. rewrite Hdir.
    destruct (sa_cuda a); reflexivity.
  - rewrite <- Hdir. exact Hcomponents.
  - unfold datasets_requested. rewrite flat_map_app.
    rewrite (flat_map_none _ dataset_of OpOmniglot epoch_op
               dataset_of_other eq_refl _ Honly).
    unfold setup_events, data_path_of. cbv zeta.
    destruct (sa_cuda a); reflexivity.
Qed.

(** C6.  [main] opens one writer, on the directory
    [<--path>/model/_<num_classes>_1].  The scalars it writes are, for each
    epoch [t] of [range(epochs)] that logs, in order, ["Train Loss"],
    ["Test Loss"] and ["Meta-Test Accuracy"], on that writer, with step [t];
    an epoch that does not log writes none. *)
Theorem main_writes_three_scalars_per_logging_epoch (config : Config) (s : S) :
  let tr := trace_of (run (answer lib) (main device config) s) in
  exists writer : Writer,
    writers_opened tr
    = [((path config ++ "/model/_" ++ str_int (num_classes config) ++ "_1")%string,
        Returned writer)]
    /\ scalars_written tr
       = flat_map (fun t => if logs_at config t
                            then [(writer, "Train Loss", t); (writer, "Test Loss", t);
                                  (writer, "Meta-Test Accuracy", t)]%string
                            else [])
                  (range (epochs config)).
Proof.
  cbv zeta.
  destruct (main_result_trace S lib device config s) as (a & s0 & _ & Htr).
  destruct (epochs_run S lib device config a s0) as (Honly & Hnz & Hzero).
  cbv zeta in *. rewrite Htr. exists (sa_writer a). split.
  - unfold writers_opened. rewrite flat_map_app.
    rewrite (flat_map_none _ writer_of OpSummaryWriter epoch_op
               writer_of_other eq_refl _ Honly).
    unfold setup_events. cbv zeta. destruct (sa_cuda a); reflexivity.
  - unfold scalars_written at 1. rewrite flat_map_app.
    replace (flat_map scalar_of (setup_events config a)) with (@nil (Writer * string * Z))
      by (unfold setup_events; cbv zeta; destruct (sa_cuda a); reflexivity).
    cbn [app]. fold (scalars_written (trace_of (run (answer lib)
      (for_each (range (epochs config))
         (epoch device config (sa_writer a) (sa_trainloader a) (sa_testloader a)
            (sa_model a) (sa_loss_fn a) (sa_optimizer a))) s0))).
    destruct (Z.eq_dec (log_every config) 0) as [Hle | Hle].
    + assert (Hnone : forall ts : list Z,
                flat_map (fun t => if logs_at config t
                                   then [(sa_writer a, "Train Loss", t);
                                         (sa_writer a, "Test Loss", t);
                                         (sa_writer a, "Meta-Test Accuracy", t)]%string
                                   else []) ts = []).
      { intros ts. induction ts as [ | t ts IH]; [ reflexivity | ].
        cbn [flat_map]. rewrite IH. unfold logs_at. rewrite Hle. reflexivity. }
      rewrite Hnone.
      destruct (Hzero Hle) as (Hnone_run & Hfirst).
      destruct (Z_le_gt_dec (epochs config) 0) as [Hep | Hep].
      * destruct (Hnone_run Hep) as (_ & ->). reflexivity.
      * destruct (Hfirst ltac:(lia)) as (_ & Hsilent).
        exact (scalars_written_silent S lib device config a 0 _ Hsilent).
    + destruct (Hnz Hle) as (_ & trs & -> & Htrs).
      exact (scalars_written_epochs S lib device config a _ _ Hle Htrs).
Qed.

(** C8.  With [log_every >= 1], [main] returns, and the trace of epoch [t]
    holds the run of [test], the report and the three scalars exactly when
    [t mod log_every = 0]; otherwise it holds the header and the run of
    [train] only.  Epoch [0], when there is one, is evaluated and logged.
    With [log_every = 0] and at least one epoch, [main] raises
    [ZeroDivisionError] in epoch [0], after the run of [train]. *)
Theorem main_tests_and_logs_every (config : Config) (s : S) :
  0 <= log_every config ->
  let r := run (answer lib) (main device config) s in
  exists a : setup_answers,
    if log_every config =? 0 then
      (epochs config <= 0 ->
       result_of r = Returned tt /\ trace_of r = setup_events config a)
      /\ (0 < epochs config ->
          result_of r = Raised ZeroDivisionError
          /\ exists tr0, trace_of r = setup_events config a ++ tr0
                         /\ silent_epoch lib device config a 0 tr0)
    else
      result_of r = Returned tt
      /\ exists trs : list (list event),
          trace_of r = setup_events config a ++ concat trs
          /\ Forall2 (fun t tr => if t mod log_every config =? 0
                                  then logged_epoch lib device config a t tr
                                  else silent_epoch lib device config a t tr)
                     (range (epochs config)) trs
          /\ (0 < epochs config ->
              exists tr0 trs', trs = tr0 :: trs'
                               /\ logged_epoch lib device config a 0 tr0).
Proof.
  intros Hle. cbv zeta.
  destruct (main_result_trace S lib device config s) as (a & s0 & Hres & Htr).
  destruct (epochs_run S lib device config a s0) as (_ & Hnz & Hzero).
  cbv zeta in *. rewrite Hres, Htr. exists a.
  destruct (Z.eqb_spec (log_every config) 0) as [Hz | Hz].
  - destruct (Hzero Hz) as (Hnone & Hfirst). split.
    + intros Hep. destruct (Hnone Hep) as (-> & ->). now rewrite app_nil_r.
    + intros Hep. destruct (Hfirst Hep) as (-> & Hsilent).
      split; [ reflexivity | ]. eexists. split; [ reflexivity | exact Hsilent ].
  - destruct (Hnz Hz) as (-> & trs & -> & Htrs).
    split; [ reflexivity | ]. exists trs. split; [ reflexivity | ].
    split; [ exact Htrs | ].
    intros Hep. unfold range in Htrs.
    destruct (Z.to_nat (epochs config)) as [ | n] eqn:En; [ lia | ].
    cbn [seq map] in Htrs. inversion Htrs as [ | t tr0 ts trs' Hhead Htail]; subst.
    exists tr0, trs'. split; [ reflexivity | ].
    unfold epoch_trace in Hhead. cbn [Z.of_nat] in Hhead.
    rewrite Z.mod_0_l in Hhead by assumption. exact Hhead.
Qed.

(** C9.  Whatever the handler, once a call has raised in [train], [test] or
    [main], the run ends with an exception: the calls that still follow are
    the exits of the [with] blocks ([tqdm] closed, [no_grad] left), and the
    exception is the one that was raised unless such an exit raises too.  The
    exceptions of [train] and [test] all come from a call; those of [main]
    come from a call or are the [ZeroDivisionError] of the modulo. *)
Theorem failures_propagate_unhandled (h : handler S) (dataloader : Loader)
    (model : Model) (loss_fn : Criterion) (optimizer : Optimizer) (num_batches : Z)
    (config : Config) (s : S) :
  let r_train := run h (train device dataloader model loss_fn optimizer num_batches) s in
  let r_test := run h (test device dataloader model loss_fn num_batches) s in
  let r_main := run h (main device config) s in
  unhandled r_train /\ unhandled r_test /\ unhandled r_main
  /\ (forall e, result_of r_train = Raised e -> raised_by_library r_train e)
  /\ (forall e, result_of r_test = Raised e -> raised_by_library r_test e)
  /\ (forall e, result_of r_main = Raised e ->
                raised_by_library r_main e \/ e = ZeroDivisionError).
Proof.
  cbv zeta.
  split; [ exact (run_unhandled _ _ S _ h _ (train_built device dataloader model loss_fn
                                               optimizer num_batches) s) | ].
  split; [ exact (run_unhandled _ _ S _ h _ (test_built device dataloader model loss_fn
                                               num_batches) s) | ].
  split; [ exact (run_unhandled _ _ S _ h _ (main_built device config) s) | ].
  split; [ | split ].
  - intros e He.
    destruct (run_raised_source _ _ _ S _ h _
                (train_built device dataloader model loss_fn optimizer num_batches)
                s e He) as [Hlib | []].
    exact Hlib.
  - intros e He.
    destruct (run_raised_source _ _ _ S _ h _
                (test_built device dataloader model loss_fn num_batches)
                s e He) as [Hlib | []].
    exact Hlib.
  - intros e He.
    exact (run_raised_source _ _ _ S _ h _ (main_built device config) s e He).
Qed.

End MainTheorems.

(** On the small library: [main] returns with [log_every = 2] and raises
    with [log_every = 0]. *)
Lemma main_tests_and_logs_every_witness :
  (0 <= 2
   /\ result_of (run (answer Toy.lib) (main (D := Toy.domain) "cpu" Toy.config) 0)
      = Returned tt)
  /\ (0 <= 0
      /\ result_of (run (answer Toy.lib)
                      (main (D := Toy.domain) "cpu" Toy.config_log_every_zero) 0)
         = Raised ZeroDivisionError).
Proof.
  split; (split; [ lia | ]).
  - destruct (main_tests_and_logs_every (D := Toy.domain) Z Toy.lib "cpu" Toy.config 0
                ltac:(simpl; lia)) as (a & H).
    exact (proj1 H).
  - destruct (main_tests_and_logs_every (D := Toy.domain) Z Toy.lib "cpu"
                Toy.config_log_every_zero 0 ltac:(simpl; lia)) as (a & H).
    exact (proj1 (proj2 H ltac:(simpl; lia))).
Defined.

(** *** [main] on the small library: three epochs, [log_every = 2] *)

Example main_toy_scalars :
  scalars_written
    (trace_of (run (answer Toy.lib) (main (D := Toy.domain) "cpu" Toy.config) 0))
  = [ ("/work/run/model/_5_1", "Train Loss", 0);
      ("/work/run/model/_5_1", "Test Loss", 0);
      ("/work/run/model/_5_1", "Meta-Test Accuracy", 0);
      ("/work/run/model/_5_1", "Train Loss", 2);
      ("/work/run/model/_5_1", "Test Loss", 2);
      ("/work/run/model/_5_1", "Meta-Test Accuracy", 2) ]%string.
Proof. reflexivity. Qed.

Example main_toy_datasets :
  datasets_requested
    (trace_of (run (answer Toy.lib) (main (D := Toy.domain) "cpu" Toy.config) 0))
  = [ ("/work/run/../data/", Some true, None, true);
      ("/work/run/../data/", None, Some true, true) ]%string.
Proof. reflexivity. Qed.

(** Three epochs of three optimizer steps each. *)
Example main_toy_steps :
  state_of (run (answer Toy.lib) (main (D := Toy.domain) "cpu" Toy.config) 0) = 9.
Proof. reflexivity. Qed.

Example main_toy_log_every_zero :
  ops (trace_of (run (answer Toy.lib)
                   (main (D := Toy.domain) "cpu" Toy.config_log_every_zero) 0))
  = ([ OpSummaryWriter; OpOsPathJoin; OpOsPathAbspath; OpOsPathExists; OpOmniglot;
       OpOmniglot; OpBatchMetaDataLoader; OpBatchMetaDataLoader; OpProtoNetwork;
       OpModelParameters; OpAdam; OpCrossEntropyLoss; OpCudaIsAvailable; OpPrint;
       OpTqdm ] ++ concat (repeat train_step_ops 3) ++ [OpTqdmClose; OpNpMean])%list.
Proof. reflexivity. Qed.

(** The whole module on an empty command line: the defaults give a hundred
    epochs, each logged, over passes of five batches. *)
Example train_py_toy :
  let r := run (answer Toy.lib) (train_py (D := Toy.domain)) 0 in
  result_of r = Returned tt
  /\ state_of r = 500
  /\ length (scalars_written (trace_of r)) = 300%nat
  /\ writers_opened (trace_of r)
     = [("/work/run/model/_5_1"%string, Returned "/work/run/model/_5_1"%string)].
Proof. vm_compute. repeat split. Qed.

(** *** Failures on the small library *)

(** The forward pass of the second batch fails: the bar is closed and
    [train] ends with the error. *)
Example train_toy_out_of_memory :
  let r := run Toy.small_device (train (D := Toy.domain) "cuda" 5%nat tt tt tt 1) 0 in
  result_of r = Raised (LibraryError "OutOfMemoryError")
  /\ ops (trace_of r)
     = (OpTqdm :: train_step_ops
          ++ [OpModelZeroGrad; OpTo; OpTo; OpTo; OpTo; OpForward; OpTqdmClose])%list.
Proof. split; reflexivity. Qed.

(** In [test] the two [with] blocks are left, innermost first. *)
Example test_toy_out_of_memory :
  let r := run Toy.small_device (test (D := Toy.domain) "cuda" 5%nat tt tt 1) 1 in
  result_of r = Raised (LibraryError "OutOfMemoryError")
  /\ ops (trace_of r)
     = [OpNoGradEnter; OpTqdm; OpModelZeroGrad; OpTo; OpTo; OpTo; OpTo; OpForward;
        OpTqdmClose; OpNoGradExit].
Proof. split; reflexivity. Qed.

(** With no network and no data on disk, [main] ends with the error of the
    dataset constructor. *)
Example main_offline :
  result_of (run Toy.offline (main (D := Toy.domain) "cpu" Toy.config) 0)
  = Raised (LibraryError "URLError").
Proof. reflexivity. Qed.

(** ** Strings and paths on small inputs *)

Example str_int_examples :
  map str_int [0; 7; 12; 500; -5] = ["0"; "7"; "12"; "500"; "-5"]%string.
Proof. reflexivity. Qed.

Example logdir_example : logdir_of Toy.config = "/work/run/model/_5_1"%string.
Proof. reflexivity. Qed.

Example epoch_header_example :
  epoch_header 0 = String.append "Epoch 1" (String "010" "-------------------------------").
Proof. reflexivity. Qed.

Example path_components_examples :
  path_components "/work/data//omniglot" = ["work"; "data"; "omniglot"]%string
  /\ path_components "/work/data/omniglot/" = ["work"; "data"; "omniglot"]%string
  /\ path_components "/" = [].
Proof. repeat split. Qed.

Example range_examples : range 3 = [0; 1; 2] /\ range 0 = [] /\ range (-2) = [].
Proof. repeat split. Qed.

(** ** The command line *)




(** ** Further properties of the loops *)

Section LoopFacts.
Context {D : Domain}.
Variables (S : Type) (lib : library S).
Variables (device : string) (model : Model) (loss_fn : Criterion) (optimizer : Optimizer).

Lemma count_op_app (o : op) (tr tr' : list event) :
  count_op o (tr ++ tr') = (count_op o tr + count_op o tr')%nat.
Proof. unfold count_op, ops. now rewrite map_app, count_occ_app. Qed.

Lemma count_op_steps (B : Type) (step : Batch -> B -> list event) (o : op) (c : nat)
    (batches : list Batch) (answers : list B) :
  (forall b a, count_op o (step b a) = c) ->
  count_op o (steps_events step batches answers)
  = (c * Nat.min (length batches) (length answers))%nat.
Proof.
  intros Hstep. unfold steps_events. revert answers.
  induction batches as [ | b batches IH]; intros [ | a answers]; simpl;
    try (now rewrite Nat.mul_0_r).
  rewrite count_op_app, Hstep, IH. lia.
Qed.

Lemma count_op_none (P : op -> bool) (o : op) (tr : list event) :
  trace_only P tr -> P o = false -> count_op o tr = 0%nat.
Proof.
  intros Htr HP. unfold count_op, ops.
  induction Htr as [ | e tr He Htr IH]; simpl; [ reflexivity | ].
  destruct (op_eq_dec (op_of (ev_call e)) o) as [Heq | _]; [ | exact IH ].
  rewrite Heq in He. congruence.
Qed.

Lemma forward_passes_count (tr : list event) : forward_passes tr = count_op OpForward tr.
Proof.
  unfold forward_passes, count_op, ops.
  induction tr as [ | [X c r] tr IH]; simpl; [ reflexivity | ].
  destruct c; simpl; rewrite <- IH; reflexivity.
Qed.

(** How often [train] and [test] make a call of a kind, from how often one
    iteration makes it. *)
Lemma train_count (o : op) (dataloader : Loader) (num_batches : Z) (s : S) :
  count_op o (trace_of (run (answer lib)
                          (train device dataloader model loss_fn optimizer num_batches) s))
  = (count_occ op_eq_dec [OpTqdm; OpTqdmClose; OpNpMean] o
     + count_occ op_eq_dec train_step_ops o
       * iterations num_batches (length (yielded lib dataloader num_batches s)))%nat.
Proof.
  destruct (train_run S lib device model loss_fn optimizer num_batches dataloader s)
    as (answers & mean & s1 & Hlen & Hrun).
  rewrite Hrun. unfold trace_of. cbn [snd].
  change (count_op o
            ([Ev (Tqdm dataloader num_batches)
                 (Returned (yielded lib dataloader num_batches s))]
             ++ steps_events (train_step_events device model loss_fn optimizer)
                  (yielded lib dataloader num_batches s) answers
             ++ [Ev TqdmClose (Returned tt);
                 Ev (NpMean (map ta_value answers)) (Returned mean)])
          = (count_occ op_eq_dec [OpTqdm; OpTqdmClose; OpNpMean] o
             + count_occ op_eq_dec train_step_ops o
               * iterations num_batches
                   (length (yielded lib dataloader num_batches s)))%nat).
  rewrite !count_op_app.
  rewrite (count_op_steps _ _ o (count_occ op_eq_dec train_step_ops o)) by reflexivity.
  rewrite Hlen. unfold iterations at 1. rewrite Nat.min_r by (unfold iterations; lia).
  unfold count_op, ops, iterations. cbn [map ev_call op_of count_occ].
  destruct (op_eq_dec OpTqdm o), (op_eq_dec OpTqdmClose o), (op_eq_dec OpNpMean o); lia.
Qed.

Lemma test_count (o : op) (dataloader : Loader) (num_batches : Z) (s : S) :
  count_op o (trace_of (run (answer lib)
                          (test device dataloader model loss_fn num_batches) s))
  = (count_occ op_eq_dec [OpNoGradEnter; OpTqdm; OpTqdmClose; OpNoGradExit;
                          OpNpMean; OpNpMean] o
     + count_occ op_eq_dec test_step_ops o
       * iterations num_batches
           (length (yielded lib dataloader num_batches (snd (lib _ NoGradEnter s)))))%nat.
Proof.
  destruct (test_run S lib device model loss_fn num_batches dataloader s)
    as (answers & mean_accuracy & mean_loss & s1 & Hlen & Hrun).
  rewrite Hrun. unfold trace_of. cbn [snd].
  set (batches := yielded lib dataloader num_batches (snd (lib _ NoGradEnter s))) in *.
  change (count_op o
            ([Ev NoGradEnter (Returned tt);
              Ev (Tqdm dataloader num_batches) (Returned batches)]
             ++ steps_events (test_step_events device model loss_fn) batches answers
             ++ [Ev TqdmClose (Returned tt); Ev NoGradExit (Returned tt);
                 Ev (NpMean (map te_accuracy answers)) (Returned mean_accuracy);
                 Ev (NpMean (map te_value answers)) (Returned mean_loss)])
          = (count_occ op_eq_dec [OpNoGradEnter; OpTqdm; OpTqdmClose; OpNoGradExit;
                                  OpNpMean; OpNpMean] o
             + count_occ op_eq_dec test_step_ops o
               * iterations num_batches (length batches))%nat).
  rewrite !count_op_app.
  rewrite (count_op_steps _ _ o (count_occ op_eq_dec test_step_ops o)) by reflexivity.
  rewrite Hlen. unfold iterations at 1. rewrite Nat.min_r by (unfold iterations; lia).
  unfold count_op, ops, iterations. cbn [map ev_call op_of count_occ].
  destruct (op_eq_dec OpNoGradEnter o), (op_eq_dec OpTqdm o), (op_eq_dec OpTqdmClose o),
    (op_eq_dec OpNoGradExit o), (op_eq_dec OpNpMean o); lia.
Qed.

(** X1.  A pass that yields no batch: [train] makes no forward pass and
    returns what [np.mean] answers on the empty list; [test] returns the pair
    of what it answers on two empty lists.  Neither fails by itself. *)
Theorem empty_pass_returns_mean_of_nothing (dataloader : Loader) (num_batches : Z) (s : S) :
  (forall s0, yielded lib dataloader num_batches s0 = []) ->
  (exists (mean : PyFloat) (s1 : S),
      run (answer lib) (train device dataloader model loss_fn optimizer num_batches) s
      = (Returned mean, s1,
         [ Ev (Tqdm dataloader num_batches) (Returned []);
           Ev TqdmClose (Returned tt);
           Ev (NpMean []) (Returned mean) ]))
  /\ (exists (mean_accuracy mean_loss : PyFloat) (s1 : S),
        run (answer lib) (test device dataloader model loss_fn num_batches) s
        = (Returned (mean_accuracy, mean_loss), s1,
           [ Ev NoGradEnter (Returned tt);
             Ev (Tqdm dataloader num_batches) (Returned []);
             Ev TqdmClose (Returned tt);
             Ev NoGradExit (Returned tt);
             Ev (NpMean []) (Returned mean_accuracy);
             Ev (NpMean []) (Returned mean_loss) ])).
Proof.
  intros Hempty. split.
  - destruct (train_run S lib device model loss_fn optimizer num_batches dataloader s)
      as (answers & mean & s1 & Hlen & Hrun).
    rewrite Hempty in Hlen, Hrun. destruct answers as [ | a answers]; [ | discriminate Hlen ].
    exists mean, s1. exact Hrun.
  - destruct (test_run S lib device model loss_fn num_batches dataloader s)
      as (answers & mean_accuracy & mean_loss & s1 & Hlen & Hrun).
    rewrite Hempty in Hlen, Hrun. destruct answers as [ | a answers]; [ | discriminate Hlen ].
    exists mean_accuracy, mean_loss, s1. exact Hrun.
Qed.

(** X2.  A negative [num_batches] does not skip the loop: the test
    [batch_idx > num_batches] already holds after the first batch, so [train]
    and [test] process exactly one batch of a pass that has one, [train] with
    one optimizer step. *)
Theorem negative_num_batches_one_batch (dataloader : Loader) (num_batches : Z) (s : S) :
  num_batches < 0 ->
  let r_train := run (answer lib)
                   (train device dataloader model loss_fn optimizer num_batches) s in
  let r_test := run (answer lib) (test device dataloader model loss_fn num_batches) s in
  forward_passes (trace_of r_train)
  = Nat.min (length (yielded lib dataloader num_batches s)) 1
  /\ count_op OpOptimizerStep (trace_of r_train)
     = Nat.min (length (yielded lib dataloader num_batches s)) 1
  /\ forward_passes (trace_of r_test)
     = Nat.min (length (yielded lib dataloader num_batches (snd (lib _ NoGradEnter s)))) 1.
Proof.
  intros Hneg. cbv zeta.
  assert (Hiter : forall L, iterations num_batches L = Nat.min L 1)
    by (intros L; unfold iterations; now rewrite Z.max_l by lia).
  rewrite !forward_passes_count, !train_count, test_count, !Hiter.
  repeat split;
    match goal with
    | |- (?a + ?b * ?n = ?n)%nat =>
        replace a with 0%nat by reflexivity; replace b with 1%nat by reflexivity; lia
    end.
Qed.

End LoopFacts.

(** On the small library: a loader of no batch, and [num_batches = -3] on a
    pass of five. *)
Lemma empty_pass_returns_mean_of_nothing_witness :
  (forall s0 : Z, yielded (D := Toy.domain) Toy.lib 0%nat 4 s0 = [])
  /\ exists (mean : Q) (s1 : Z),
      run (answer Toy.lib) (train (D := Toy.domain) "cpu" 0%nat tt tt tt 4) 0
      = (Returned mean, s1,
         [ Ev (Tqdm (D := Toy.domain) 0%nat 4) (Returned []);
           Ev TqdmClose (Returned tt);
           Ev (NpMean (D := Toy.domain) []) (Returned mean) ]).
Proof.
  split; [ intros s0; reflexivity | ].
  exact (proj1 (empty_pass_returns_mean_of_nothing (D := Toy.domain) Z Toy.lib
                  "cpu" tt tt tt 0%nat 4 0 (fun _ => eq_refl))).
Defined.

Lemma negative_num_batches_one_batch_witness :
  -3 < 0
  /\ forward_passes
       (trace_of (run (answer Toy.lib)
                    (train (D := Toy.domain) "cpu" 5%nat tt tt tt (-3)) 0)) = 1%nat.
Proof.
  split; [ lia | ].
  exact (proj1 (negative_num_batches_one_batch (D := Toy.domain) Z Toy.lib
                  "cpu" tt tt tt 5%nat (-3) 0 ltac:(lia))).
Defined.

(** X3.  The loops never look past the first [max(1, num_batches + 2)]
    batches of a pass: whatever the handler answers, and fails or not, a
    longer pass gives the same outcome, state and trace. *)
Theorem loops_ignore_the_rest_of_the_pass {D : Domain} (S : Type) (h : handler S)
    (device : string) (model : Model) (loss_fn : Criterion) (optimizer : Optimizer)
    (num_batches : Z) (pbar extra : list Batch) (s : S) :
  (Z.to_nat (Z.max 1 (num_batches + 2)) <= length pbar)%nat ->
  run h (train_loop device model loss_fn optimizer num_batches (pbar ++ extra) 0 []) s
  = run h (train_loop device model loss_fn optimizer num_batches pbar 0 []) s
  /\ run h (test_loop device model loss_fn num_batches (pbar ++ extra) 0 [] []) s
     = run h (test_loop device model loss_fn num_batches pbar 0 [] []) s.
Proof.
  intros Hlen. split.
  - apply train_loop_prefix. now rewrite Z.sub_0_r.
  - apply test_loop_prefix. now rewrite Z.sub_0_r.
Qed.

(** On the small device: with [num_batches = 0], two batches or five give
    the same failing run. *)
Lemma loops_ignore_the_rest_of_the_pass_witness :
  run Toy.small_device
    (train_loop (D := Toy.domain) "cuda" tt tt tt 0 (repeat Toy.batch 5) 0 []) 0
  = run Toy.small_device
      (train_loop (D := Toy.domain) "cuda" tt tt tt 0 (repeat Toy.batch 2) 0 []) 0.
Proof.
  exact (proj1 (loops_ignore_the_rest_of_the_pass (D := Toy.domain) Z Toy.small_device
                  "cuda" tt tt tt 0 (repeat Toy.batch 2) (repeat Toy.batch 3) 0
                  ltac:(simpl; lia))).
Defined.

(** ** Further properties of [main] *)

(** The epochs that log, counted: [ceil(n / every)] among [0 .. n-1]. *)
Lemma multiples_below (every : Z) (n : nat) :
  1 <= every ->
  length (filter (fun t => t mod every =? 0) (map Z.of_nat (seq 0 n)))
  = Z.to_nat ((Z.of_nat n + every - 1) / every).
Proof.
  intros Hevery. induction n as [ | n IH].
  - simpl. rewrite Z.div_small by lia. reflexivity.
  - rewrite seq_S, map_app, filter_app, length_app, IH. cbn [plus map filter].
    pose proof (Z.div_mod (Z.of_nat n) every ltac:(lia)) as Hdm.
    pose proof (Z.mod_pos_bound (Z.of_nat n) every ltac:(lia)) as Hbound.
    set (q := Z.of_nat n / every) in *. set (r := Z.of_nat n mod every) in *.
    assert (Hnext : (Z.of_nat (Datatypes.S n) + every - 1) / every = q + 1).
    { symmetry. apply Z.div_unique with (r := r); nia. }
    rewrite Hnext.
    destruct (Z.eqb_spec r 0) as [Hr | Hr]; cbn [length].
    + assert (Hthis : (Z.of_nat n + every - 1) / every = q).
      { symmetry. apply Z.div_unique with (r := every - 1); nia. }
      rewrite Hthis. pose proof (Z.div_pos (Z.of_nat n) every ltac:(lia) ltac:(lia)).
      fold q in H. lia.
    + assert (Hthis : (Z.of_nat n + every - 1) / every = q + 1).
      { symmetry. apply Z.div_unique with (r := r - 1); nia. }
      rewrite Hthis. lia.
Qed.

Lemma logging_epochs_count (config : Config) :
  1 <= log_every config -> length (logging_epochs config) = evaluations config.
Proof.
  intros Hevery. unfold logging_epochs, evaluations, range.
  assert (Hlogs : forall t, logs_at config t = (t mod log_every config =? 0)).
  { intros t. unfold logs_at.
    destruct (Z.eqb_spec (log_every config) 0); [ lia | reflexivity ]. }
  rewrite (filter_ext _ _ Hlogs), multiples_below by assumption.
  destruct (Z_le_gt_dec 0 (epochs config)) as [Hpos | Hneg].
  - now rewrite Z2Nat.id.
  - replace (Z.to_nat (epochs config)) with 0%nat by lia. cbn [Z.of_nat].
    replace ((0 + log_every config - 1) / log_every config) with 0
      by (symmetry; apply Z.div_small; lia).
    assert (Hle : (epochs config + log_every config - 1) / log_every config < 1)
      by (apply Z.div_lt_upper_bound; lia).
    destruct ((epochs config + log_every config - 1) / log_every config);
      [ reflexivity | lia | reflexivity ].
Qed.

Section MainFacts.
Context {D : Domain}.
Variables (S : Type) (lib : library S).
Variable device : string.

(** How often an epoch makes a call of kind [o], when the iterations of
    [train] make it [in_train] times and those of [test] [in_test] times. *)
Lemma epoch_count (config : Config) (a : setup_answers) (o : op) (in_train in_test : nat) :
  (forall dataloader s,
      (count_occ op_eq_dec train_step_ops o
       * iterations (num_batches config)
           (length (yielded lib dataloader (num_batches config) s)))%nat = in_train) ->
  (forall dataloader s,
      (count_occ op_eq_dec test_step_ops o
       * iterations (num_batches config)
           (length (yielded lib dataloader (num_batches config) s)))%nat = in_test) ->
  forall t tr,
    (silent_epoch lib device config a t tr ->
     count_op o tr
     = (count_occ op_eq_dec [OpPrint; OpTqdm; OpTqdmClose; OpNpMean] o + in_train)%nat)
    /\ (logged_epoch lib device config a t tr ->
        count_op o tr
        = (count_occ op_eq_dec [OpPrint; OpTqdm; OpTqdmClose; OpNpMean] o + in_train
           + (count_occ op_eq_dec [OpNoGradEnter; OpTqdm; OpTqdmClose; OpNoGradExit;
                                   OpNpMean; OpNpMean; OpPrint; OpAddScalar;
                                   OpAddScalar; OpAddScalar] o + in_test))%nat).
Proof.
  intros Htrain Htest t tr. split.
  - intros (s0 & ->).
    change (count_op o ([Ev (Print (epoch_header t)) (Returned tt)]
                        ++ trace_of (run (answer lib)
                                       (train device (sa_trainloader a) (sa_model a)
                                          (sa_loss_fn a) (sa_optimizer a)
                                          (num_batches config)) s0))
            = (count_occ op_eq_dec [OpPrint; OpTqdm; OpTqdmClose; OpNpMean] o
               + in_train)%nat).
    rewrite count_op_app, train_count, Htrain.
    unfold count_op, ops. cbn [map ev_call op_of count_occ].
    destruct (op_eq_dec OpPrint o); lia.
  - intros (s0 & train_loss & test_accuracy & test_loss & _ & _ & ->).
    match goal with
    | |- count_op o (?e :: ?t1 ++ ?t2 ++ ?l) = _ =>
        change (count_op o ([e] ++ t1 ++ t2 ++ l)
                = (count_occ op_eq_dec [OpPrint; OpTqdm; OpTqdmClose; OpNpMean] o + in_train
                   + (count_occ op_eq_dec [OpNoGradEnter; OpTqdm; OpTqdmClose; OpNoGradExit;
                                           OpNpMean; OpNpMean; OpPrint; OpAddScalar;
                                           OpAddScalar; OpAddScalar] o + in_test))%nat)
    end.
    rewrite !count_op_app, train_count, test_count, Htrain, Htest.
    unfold count_op, ops. cbn [map ev_call op_of count_occ].
    destruct (op_eq_dec OpPrint o), (op_eq_dec OpTqdm o), (op_eq_dec OpTqdmClose o),
      (op_eq_dec OpNpMean o), (op_eq_dec OpNoGradEnter o), (op_eq_dec OpNoGradExit o),
      (op_eq_dec OpAddScalar o); lia.
Qed.

Lemma epochs_count (config : Config) (a : setup_answers) (o : op) (silent logged : nat)
    (ts : list Z) (trs : list (list event)) :
  log_every config <> 0 ->
  (forall t tr, silent_epoch lib device config a t tr -> count_op o tr = silent) ->
  (forall t tr, logged_epoch lib device config a t tr -> count_op o tr = (silent + logged)%nat) ->
  Forall2 (epoch_trace lib device config a) ts trs ->
  count_op o (concat trs)
  = (silent * length ts + logged * length (filter (logs_at config) ts))%nat.
Proof.
  intros Hnz Hsilent Hlogged Htrs.
  induction Htrs as [ | t tr ts trs Htr Htrs IH]; [ cbn; lia | ].
  cbn [concat filter length]. rewrite count_op_app, IH.
  unfold epoch_trace in Htr. unfold logs_at at 2.
  destruct (Z.eqb_spec (log_every config) 0) as [ | _ ]; [ contradiction | ].
  cbn [negb andb].
  destruct (t mod log_every config =? 0).
  - rewrite (Hlogged t tr Htr). cbn [length]. lia.
  - rewrite (Hsilent t tr Htr). lia.
Qed.

End MainFacts.

Section MainCounts.
Context {D : Domain}.
Variables (S : Type) (lib : library S).
Variable device : string.

Lemma setup_count (config : Config) (a : setup_answers) (o : op) :
  epoch_op o = true -> count_op o (setup_events config a) = 0%nat.
Proof.
  intros Ho. unfold setup_events, count_op, ops.
  destruct (sa_cuda a); destruct o; try discriminate Ho; reflexivity.
Qed.

Lemma range_length (n : Z) : length (range n) = Z.to_nat n.
Proof. unfold range. now rewrite length_map, length_seq. Qed.

(** How often [main] makes a call of a kind that belongs to the epochs. *)
Lemma main_count (config : Config) (o : op) (in_train in_test : nat) (s : S) :
  log_every config <> 0 ->
  epoch_op o = true ->
  (forall dataloader s0,
      (count_occ op_eq_dec train_step_ops o
       * iterations (num_batches config)
           (length (yielded lib dataloader (num_batches config) s0)))%nat = in_train) ->
  (forall dataloader s0,
      (count_occ op_eq_dec test_step_ops o
       * iterations (num_batches config)
           (length (yielded lib dataloader (num_batches config) s0)))%nat = in_test) ->
  count_op o (trace_of (run (answer lib) (main device config) s))
  = ((count_occ op_eq_dec [OpPrint; OpTqdm; OpTqdmClose; OpNpMean] o + in_train)
     * Z.to_nat (epochs config)
     + (count_occ op_eq_dec [OpNoGradEnter; OpTqdm; OpTqdmClose; OpNoGradExit;
                             OpNpMean; OpNpMean; OpPrint; OpAddScalar;
                             OpAddScalar; OpAddScalar] o + in_test)
       * length (logging_epochs config))%nat.
Proof.
  intros Hnz Ho Htrain Htest.
  destruct (main_result_trace S lib device config s) as (a & s0 & _ & Htrace).
  rewrite Htrace, count_op_app, setup_count by assumption.
  destruct (epochs_run S lib device config a s0) as (_ & Hrun & _).
  destruct (Hrun Hnz) as (_ & trs & -> & Htrs).
  rewrite (epochs_count S lib device config a o _ _ _ _ Hnz
             (fun t tr => proj1 (epoch_count S lib device config a o _ _ Htrain Htest t tr))
             (fun t tr => proj2 (epoch_count S lib device config a o _ _ Htrain Htest t tr))
             Htrs).
  rewrite range_length. reflexivity.
Qed.

(** X4.  With no epoch to run ([epochs <= 0]) [main] makes the calls of its
    set-up and returns: the writer is opened, the data set is looked up and
    built, the model and the optimizer are made, and nothing is trained,
    evaluated or logged.  This holds for every [log_every], zero included:
    the modulo is never computed. *)
Theorem main_without_epochs (config : Config) (s : S) :
  epochs config <= 0 ->
  exists a : setup_answers,
    result_of (run (answer lib) (main device config) s) = Returned tt
    /\ trace_of (run (answer lib) (main device config) s) = setup_events config a
    /\ forall o, epoch_op o = true ->
                 count_op o (trace_of (run (answer lib) (main device config) s)) = 0%nat.
Proof.
  intros Hepochs.
  destruct (main_result_trace S lib device config s) as (a & s0 & Hresult & Htrace).
  cbv zeta in Hresult, Htrace. unfold range in Hresult, Htrace.
  replace (Z.to_nat (epochs config)) with 0%nat in Hresult, Htrace by lia.
  cbn [seq map for_each run] in Hresult, Htrace.
  unfold result_of at 2 in Hresult. unfold trace_of at 2 in Htrace.
  cbn [fst snd] in Hresult, Htrace. rewrite app_nil_r in Htrace.
  exists a. split; [ assumption | ]. split; [ assumption | ].
  intros o Ho. rewrite Htrace. now apply setup_count.
Qed.

(** X5.  With [log_every >= 1], [main] runs [test] in
    [ceil(epochs / log_every)] epochs, whatever the library answers: this is
    the number of [no_grad] blocks it enters, a third of the number of
    scalars it writes, and with the number of epochs it gives the number of
    passes over a loader and the number of lines printed. *)
Theorem main_evaluation_count (config : Config) (s : S) :
  1 <= log_every config ->
  let tr := trace_of (run (answer lib) (main device config) s) in
  count_op OpNoGradEnter tr = evaluations config
  /\ count_op OpAddScalar tr = (3 * evaluations config)%nat
  /\ count_op OpTqdm tr = (Z.to_nat (epochs config) + evaluations config)%nat
  /\ count_op OpPrint tr = (Z.to_nat (epochs config) + evaluations config)%nat.
Proof.
  intros Hevery tr. subst tr.
  assert (Hnz : log_every config <> 0) by lia.
  rewrite <- (logging_epochs_count config Hevery).
  repeat split.
  - rewrite (main_count config OpNoGradEnter 0 0 s Hnz eq_refl);
      [ cbn [count_occ]; repeat (destruct (op_eq_dec _ _); try congruence); lia | | ];
      intros; reflexivity.
  - rewrite (main_count config OpAddScalar 0 0 s Hnz eq_refl);
      [ cbn [count_occ]; repeat (destruct (op_eq_dec _ _); try congruence); lia | | ];
      intros; reflexivity.
  - rewrite (main_count config OpTqdm 0 0 s Hnz eq_refl);
      [ cbn [count_occ]; repeat (destruct (op_eq_dec _ _); try congruence); lia | | ];
      intros; reflexivity.
  - rewrite (main_count config OpPrint 0 0 s Hnz eq_refl);
      [ cbn [count_occ]; repeat (destruct (op_eq_dec _ _); try congruence); lia | | ];
      intros; reflexivity.
Qed.

(** X6.  When no pass runs dry (each yields at least [num_batches + 2]
    batches, [num_batches >= 0]) and [log_every] is not zero, [main] makes
    [epochs * (num_batches + 2)] optimizer steps and backward passes, and
    [(epochs + logging epochs) * (num_batches + 2)] forward passes: [test]
    adds forward passes and no step. *)
Theorem main_total_work (config : Config) (s : S) :
  0 <= num_batches config ->
  log_every config <> 0 ->
  (forall dataloader s0,
      (Z.to_nat (num_batches config + 2)
       <= length (yielded lib dataloader (num_batches config) s0))%nat) ->
  let tr := trace_of (run (answer lib) (main device config) s) in
  count_op OpOptimizerStep tr
  = (Z.to_nat (epochs config) * Z.to_nat (num_batches config + 2))%nat
  /\ count_op OpBackward tr
     = (Z.to_nat (epochs config) * Z.to_nat (num_batches config + 2))%nat
  /\ forward_passes tr
     = ((Z.to_nat (epochs config) + length (logging_epochs config))
        * Z.to_nat (num_batches config + 2))%nat.
Proof.
  intros Hnb Hnz Hfull tr. subst tr.
  assert (Hiter : forall dataloader s0,
             iterations (num_batches config)
               (length (yielded lib dataloader (num_batches config) s0))
             = Z.to_nat (num_batches config + 2)).
  { intros dataloader s0. specialize (Hfull dataloader s0). unfold iterations.
    rewrite Z.max_r by lia. lia. }
  repeat split.
  - rewrite (main_count config OpOptimizerStep (Z.to_nat (num_batches config + 2)) 0 s
               Hnz eq_refl).
    + cbn [count_occ]. repeat (destruct (op_eq_dec _ _); try congruence). lia.
    + intros dataloader s0. rewrite Hiter. cbn [train_step_ops count_occ].
      repeat (destruct (op_eq_dec _ _); try congruence). lia.
    + intros dataloader s0. reflexivity.
  - rewrite (main_count config OpBackward (Z.to_nat (num_batches config + 2)) 0 s
               Hnz eq_refl).
    + cbn [count_occ]. repeat (destruct (op_eq_dec _ _); try congruence). lia.
    + intros dataloader s0. rewrite Hiter. cbn [train_step_ops count_occ].
      repeat (destruct (op_eq_dec _ _); try congruence). lia.
    + intros dataloader s0. reflexivity.
  - rewrite forward_passes_count.
    rewrite (main_count config OpForward (Z.to_nat (num_batches config + 2))
               (Z.to_nat (num_batches config + 2)) s Hnz eq_refl).
    + cbn [count_occ]. repeat (destruct (op_eq_dec _ _); try congruence). lia.
    + intros dataloader s0. rewrite Hiter. cbn [train_step_ops count_occ].
      repeat (destruct (op_eq_dec _ _); try congruence). lia.
    + intros dataloader s0. rewrite Hiter. cbn [test_step_ops count_occ].
      repeat (destruct (op_eq_dec _ _); try congruence). lia.
Qed.

End MainCounts.

(** No epoch and [log_every = 0]: the set-up runs and [main] returns. *)
Lemma main_without_epochs_witness :
  epochs (with_epochs Toy.config_log_every_zero 0) <= 0
  /\ exists a : setup_answers (D := Toy.domain),
      result_of (run (answer Toy.lib)
                   (main (D := Toy.domain) "cpu"
                      (with_epochs Toy.config_log_every_zero 0)) 0) = Returned tt
      /\ trace_of (run (answer Toy.lib)
                     (main (D := Toy.domain) "cpu"
                        (with_epochs Toy.config_log_every_zero 0)) 0)
         = setup_events (with_epochs Toy.config_log_every_zero 0) a.
Proof.
  split; [ simpl; lia | ].
  destruct (main_without_epochs (D := Toy.domain) Z Toy.lib "cpu"
              (with_epochs Toy.config_log_every_zero 0) 0 ltac:(simpl; lia))
    as (a & Hresult & Htrace & _).
  exists a. split; assumption.
Defined.

(** Seven epochs and [log_every = 3]: epochs 0, 3 and 6 evaluate. *)
Lemma main_evaluation_count_witness :
  1 <= log_every (with_log_every (with_epochs Toy.config 7) 3)
  /\ count_op OpNoGradEnter
       (trace_of (run (answer Toy.lib)
                    (main (D := Toy.domain) "cpu"
                       (with_log_every (with_epochs Toy.config 7) 3)) 0)) = 3%nat.
Proof.
  split; [ simpl; lia | ].
  exact (proj1 (main_evaluation_count (D := Toy.domain) Z Toy.lib "cpu"
                  (with_log_every (with_epochs Toy.config 7) 3) 0 ltac:(simpl; lia))).
Defined.

(** Three epochs of three batches on loaders that never run dry. *)
Lemma main_total_work_witness :
  (0 <= num_batches Toy.config
   /\ log_every Toy.config <> 0
   /\ forall (dataloader : nat) (s0 : Z),
       (Z.to_nat (num_batches Toy.config + 2)
        <= length (yielded (D := Toy.domain) steady dataloader
                     (num_batches Toy.config) s0))%nat)
  /\ count_op OpOptimizerStep
       (trace_of (run (answer steady) (main (D := Toy.domain) "cpu" Toy.config) 0))
     = 9%nat.
Proof.
  split.
  - split; [ simpl; lia | ]. split; [ simpl; lia | ].
    intros dataloader s0. simpl. lia.
  - refine (proj1 (main_total_work (D := Toy.domain) Z steady "cpu" Toy.config 0
                     _ _ _)).
    + simpl. lia.
    + simpl. lia.
    + intros dataloader s0. simpl. lia.
Defined.

(** ** The sign of [log_every] *)

Section LogEverySign.
Context {D : Domain}.
Variables (S : Type) (h : handler S).
Variable device : string.

Lemma mod_opp_zero (t every : Z) : (t mod - every =? 0) = (t mod every =? 0).
Proof.
  destruct (Z.eq_dec every 0) as [-> | Hnz]; [ reflexivity | ].
  destruct (Z.eqb_spec (t mod every) 0) as [Hz | Hz].
  - apply Z.eqb_eq. apply Z.mod_divide in Hz; [ | assumption ].
    apply Z.mod_divide; [ lia | ]. exact (proj2 (Z.divide_opp_l every t) Hz).
  - apply Z.eqb_neq. intros Hopp. apply Hz.
    apply Z.mod_divide in Hopp; [ | lia ].
    apply Z.mod_divide; [ assumption | ]. exact (proj1 (Z.divide_opp_l every t) Hopp).
Qed.

Lemma for_each_run_ext (body body' : Z -> Prog unit) (ts : list Z) :
  (forall t s, run h (body t) s = run h (body' t) s) ->
  forall s, run h (for_each ts body) s = run h (for_each ts body') s.
Proof.
  intros Hbody. induction ts as [ | t ts IH]; intros s; cbn [for_each];
    [ reflexivity | ].
  rewrite !run_bind, Hbody.
  destruct (run h (body' t) s) as [[[u | e] s1] tr]; [ | reflexivity ].
  now rewrite IH.
Qed.

Lemma epoch_opp_log_every (config : Config) (writer : Writer)
    (trainloader testloader : Loader) (model : Model) (loss_fn : Criterion)
    (optimizer : Optimizer) (t : Z) (s : S) :
  run h (epoch device (with_log_every config (- log_every config)) writer trainloader
           testloader model loss_fn optimizer t) s
  = run h (epoch device config writer trainloader testloader model loss_fn optimizer t) s.
Proof.
  unfold epoch. cbn [with_log_every num_batches log_every].
  apply run_bind_ext. intros _ s1.
  apply run_bind_ext. intros train_loss s2.
  unfold py_mod.
  destruct (Z.eqb_spec (log_every config) 0) as [Hz | Hnz].
  - rewrite Hz. reflexivity.
  - destruct (Z.eqb_spec (- log_every config) 0) as [Hz | _]; [ lia | ].
    cbn [bind]. now rewrite mod_opp_zero.
Qed.

(** X7.  Only the multiples of [log_every] matter, not its sign: [main] run
    with [--log_every -k] makes the calls, and has the outcome, of [main]
    run with [--log_every k], whatever the library answers and wherever a
    call fails.  Python's [t % -k] has the sign of the divisor and is zero
    exactly when [t % k] is. *)
Theorem main_log_every_sign (config : Config) (s : S) :
  run h (main device (with_log_every config (- log_every config))) s
  = run h (main device config) s.
Proof.
  unfold main. cbv zeta.
  cbn [with_log_every num_classes num_samples batch_size epochs path].
  unfold logdir_of. cbn [with_log_every num_classes path].
  revert s.
  do 14 (apply run_bind_ext; intros ? ?).
  apply for_each_run_ext. intros t s'. apply epoch_opp_log_every.
Qed.

End LogEverySign.

(** ** The device tensors are moved to *)

Section Devices.
Context {D : Domain}.

Lemma every_call_bind (P : forall X : Type, call X -> Prop) (A B : Type)
    (p : Prog A) (f : A -> Prog B) :
  every_call P p -> (forall a, every_call P (f a)) -> every_call P (bind p f).
Proof.
  intros Hp. revert B f.
  induction Hp as [A a | A e | A X c k Hc Hk IH | A C body exit k Hbody _ Hexit Hk IH];
    intros B f Hf; simpl.
  - apply Hf.
  - constructor.
  - constructor; [ assumption | intros x; now apply IH ].
  - constructor; [ assumption | assumption | intros b; now apply IH ].
Qed.

Lemma every_call_perform (P : forall X : Type, call X -> Prop) (X : Type) (c : call X) :
  P X c -> every_call P (perform c).
Proof. intros Hc. constructor; [ assumption | intros x; constructor ]. Qed.

Lemma every_call_with (P : forall X : Type, call X -> Prop) (X B : Type)
    (enter : call X) (exit : call unit) (body : X -> Prog B) :
  P X enter -> P unit exit -> (forall x, every_call P (body x)) ->
  every_call P (with_ enter exit body).
Proof.
  intros Henter Hexit Hbody. constructor; [ assumption | intros x ].
  constructor; [ apply Hbody | assumption | intros b; constructor ].
Qed.

(** What holds of every call of a program holds of every call in its traces,
    whatever the handler answers. *)
Lemma every_call_trace (P : forall X : Type, call X -> Prop) (S A : Type)
    (h : handler S) (p : Prog A) :
  every_call P p -> forall s, trace_all P (trace_of (run h p s)).
Proof.
  unfold trace_all, trace_of.
  induction 1 as [A a | A e | A X c k Hc Hk IH
                  | A C body exit k Hbody IHbody Hexit Hk IH]; intros s; simpl.
  - constructor.
  - constructor.
  - destruct (h X c s) as [[x | e] s1].
    + specialize (IH x s1). destruct (run h (k x) s1) as [[o s2] tr].
      simpl in IH |- *. constructor; assumption.
    + simpl. constructor; [ assumption | constructor ].
  - specialize (IHbody s). destruct (run h body s) as [[o s1] tr]. simpl in IHbody.
    destruct (h unit exit s1) as [[u | e'] s2].
    + destruct o as [b | e].
      * specialize (IH b s2). destruct (run h (k b) s2) as [[o' s3] tr'].
        simpl in IH |- *.
        apply Forall_app. split; [ assumption | ]. constructor; assumption.
      * simpl. apply Forall_app. split; [ assumption | ].
        constructor; [ assumption | constructor ].
    + simpl. apply Forall_app. split; [ assumption | ].
      constructor; [ assumption | constructor ].
Qed.

Ltac moves_step :=
  first [ apply every_call_bind;
          [ apply every_call_perform; first [ reflexivity | exact I ] | intros ? ]
        | apply every_call_perform; first [ reflexivity | exact I ]
        | apply every_ret ].

Lemma train_loop_moves (device : string) (model : Model) (loss_fn : Criterion)
    (optimizer : Optimizer) (num_batches : Z) (pbar : list Batch) :
  forall (batch_idx : Z) (avg_loss : list PyFloat),
    every_call (moves_to device)
      (train_loop device model loss_fn optimizer num_batches pbar batch_idx avg_loss).
Proof.
  induction pbar as [ | batch pbar IH]; intros batch_idx avg_loss; cbn [train_loop].
  - constructor.
  - destruct (b_train batch), (b_test batch). do 12 moves_step.
    destruct (batch_idx >? num_batches); [ constructor | apply IH ].
Qed.

Lemma test_loop_moves (device : string) (model : Model) (loss_fn : Criterion)
    (num_batches : Z) (pbar : list Batch) :
  forall (batch_idx : Z) (accuracy_list avg_loss : list PyFloat),
    every_call (moves_to device)
      (test_loop device model loss_fn num_batches pbar batch_idx accuracy_list avg_loss).
Proof.
  induction pbar as [ | batch pbar IH]; intros batch_idx accuracy_list avg_loss;
    cbn [test_loop].
  - constructor.
  - destruct (b_train batch), (b_test batch). do 14 moves_step.
    destruct (batch_idx >? num_batches); [ constructor | apply IH ].
Qed.

Lemma train_moves (device : string) (dataloader : Loader) (model : Model)
    (loss_fn : Criterion) (optimizer : Optimizer) (num_batches : Z) :
  every_call (moves_to device) (train device dataloader model loss_fn optimizer num_batches).
Proof.
  unfold train. apply every_call_bind; [ | intros; moves_step ].
  apply every_call_with; [ exact I | exact I | intros pbar ].
  apply train_loop_moves.
Qed.

Lemma test_moves (device : string) (dataloader : Loader) (model : Model)
    (loss_fn : Criterion) (num_batches : Z) :
  every_call (moves_to device) (test device dataloader model loss_fn num_batches).
Proof.
  unfold test. apply every_call_bind; [ | intros; do 3 moves_step ].
  apply every_call_with; [ exact I | exact I | intros _ ].
  apply every_call_with; [ exact I | exact I | intros pbar ].
  apply test_loop_moves.
Qed.

Lemma epoch_moves (device : string) (config : Config) (writer : Writer)
    (trainloader testloader : Loader) (model : Model) (loss_fn : Criterion)
    (optimizer : Optimizer) (t : Z) :
  every_call (moves_to device)
    (epoch device config writer trainloader testloader model loss_fn optimizer t).
Proof.
  unfold epoch. moves_step.
  apply every_call_bind; [ apply train_moves | intros train_loss ].
  apply every_call_bind.
  { unfold py_mod. destruct (log_every config =? 0); constructor. }
  intros r. destruct (r =? 0); [ | constructor ].
  apply every_call_bind; [ apply test_moves | ].
  intros [test_accuracy test_loss]. do 4 moves_step.
Qed.

Lemma main_moves (device : string) (config : Config) :
  every_call (moves_to device) (main device config).
Proof.
  unfold main. cbv zeta. do 13 moves_step.
  apply every_call_bind.
  { match goal with
    | |- context [if ?available then _ else _] => destruct available
    end; [ apply every_call_perform; exact I | constructor ]. }
  intros _. induction (range (epochs config)) as [ | t ts IH]; cbn [for_each].
  - constructor.
  - apply every_call_bind; [ apply epoch_moves | intros _; apply IH ].
Qed.

(** X8.  Every [.to(...)] of a run of the module moves its tensor to the
    device line 18 chose when the module was loaded: ["cuda"] when the first
    [torch.cuda.is_available()] answered [True], ["cpu"] otherwise.  This
    holds whatever the library answers later, the second
    [torch.cuda.is_available()] of [main] included, and wherever the run
    fails. *)
Theorem tensors_follow_the_global_device (S : Type) (h : handler S) (s : S) :
  let tr := trace_of (run h train_py s) in
  trace_all (moves_to (global_device tr)) tr.
Proof.
  cbv zeta.
  pose (rest := fun device : string =>
                  (cwd <- perform OsGetcwd ;;
                   config <- perform (ParseArgs (parser cwd)) ;;
                   main device config)%prog).
  assert (Hrun : run h train_py s
                 = match h bool CudaIsAvailable s with
                   | (Returned available, s1) =>
                       let '(o, s2, tr) :=
                         run h (rest (if available then "cuda" else "cpu")%string) s1 in
                       (o, s2, Ev CudaIsAvailable (Returned available) :: tr)
                   | (Raised e, s1) => (Raised e, s1, [Ev CudaIsAvailable (Raised e)])
                   end) by reflexivity.
  rewrite Hrun. clear Hrun.
  destruct (h bool CudaIsAvailable s) as [[available | e] s1].
  - assert (Hrest : every_call (moves_to (if available then "cuda" else "cpu")%string)
                      (rest (if available then "cuda" else "cpu")%string)).
    { unfold rest. do 2 moves_step. apply main_moves. }
    pose proof (every_call_trace _ S unit h _ Hrest s1) as Htrace.
    unfold trace_all, trace_of in Htrace |- *.
    destruct (run h (rest _) s1) as [[o s2] tr]. cbn [fst snd] in Htrace |- *.
    cbn [global_device says_cuda].
    constructor; [ exact I | exact Htrace ].
  - unfold trace_all, trace_of. cbn [snd global_device says_cuda].
    constructor; [ exact I | constructor ].
Qed.

End Devices.

(** ** The [with] blocks *)

Section Blocks.
Context {D : Domain}.

Lemma count_op_cons (o : op) (e : event) (tr : list event) :
  count_op o (e :: tr)
  = ((if op_eq_dec (op_of (ev_call e)) o then 1 else 0) + count_op o tr)%nat.
Proof.
  unfold count_op, ops. cbn [map count_occ].
  destruct (op_eq_dec (op_of (ev_call e)) o); reflexivity.
Qed.

Lemma answered_app (o : op) (tr tr' : list event) :
  answered o (tr ++ tr') = (answered o tr + answered o tr')%nat.
Proof. unfold answered. now rewrite filter_app, count_op_app. Qed.

Lemma answered_returned (o : op) (X : Type) (c : call X) (x : X) (tr : list event) :
  answered o (Ev c (Returned x) :: tr)
  = ((if op_eq_dec (op_of c) o then 1 else 0) + answered o tr)%nat.
Proof. unfold answered. cbn [filter failure_of ev_answer]. now rewrite count_op_cons. Qed.

Lemma answered_raised (o : op) (X : Type) (c : call X) (e : exn) (tr : list event) :
  answered o (Ev c (Raised e) :: tr) = answered o tr.
Proof. reflexivity. Qed.

Lemma bracketed_bind (enter exit : op) (A B : Type) (p : Prog A) (f : A -> Prog B) :
  bracketed enter exit p ->
  (forall a, bracketed enter exit (f a)) ->
  bracketed enter exit (bind p f).
Proof.
  intros Hp. revert B f.
  induction Hp as [A a | A e | A X c k Hc Hc' Hk IH
                   | A C X c body leave k Hc Hleave Hbody _ Hk IH
                   | A C body leave k Hleave Hleave' Hbody _ Hk IH];
    intros B f Hf; cbn [bind].
  - apply Hf.
  - constructor.
  - constructor; [ assumption | assumption | intros x; now apply IH ].
  - apply (@bracketed_with _ enter exit _ _ _ c body leave (fun x b => bind (k x b) f));
      [ assumption | assumption | assumption | intros x b; now apply IH ].
  - constructor; [ assumption | assumption | assumption | intros b; now apply IH ].
Qed.

Lemma bracketed_perform (enter exit : op) (X : Type) (c : call X) :
  op_of c <> enter -> op_of c <> exit -> bracketed enter exit (perform c).
Proof. intros Hc Hc'. constructor; [ assumption | assumption | intros x; constructor ]. Qed.

Ltac op_cases :=
  cbn [ev_call ev_type];
  repeat match goal with
         | |- context [op_eq_dec ?a ?b] => destruct (op_eq_dec a b)
         end;
  cbn [ev_type] in *;
  try contradiction; try congruence; cbn [plus]; first [ lia | reflexivity | idtac ].

(** Whatever the handler answers, a block that was entered is left. *)
Lemma bracketed_trace (enter exit : op) (S A : Type) (h : handler S) (p : Prog A) :
  enter <> exit ->
  bracketed enter exit p ->
  forall s, answered enter (trace_of (run h p s)) = count_op exit (trace_of (run h p s)).
Proof.
  intros Hneq. unfold trace_of.
  induction 1 as [A a | A e | A X c k Hc Hc' Hk IH
                  | A C X c body leave k Hc Hleave Hbody IHbody Hk IH
                  | A C body leave k Hleave Hleave' Hbody IHbody Hk IH];
    intros s; cbn [run].
  - reflexivity.
  - reflexivity.
  - destruct (h X c s) as [[x | e] s1].
    + specialize (IH x s1). destruct (run h (k x) s1) as [[o s2] tr].
      cbn [snd] in IH |- *. rewrite answered_returned, count_op_cons. op_cases.
    + cbn [snd]. rewrite answered_raised, count_op_cons. op_cases.
  - assert (Hexit : forall r tr,
               answered enter (Ev leave r :: tr) = answered enter tr
               /\ count_op exit (Ev leave r :: tr) = Datatypes.S (count_op exit tr)).
    { intros r tr. split.
      - destruct r as [u | e]; [ rewrite answered_returned | apply answered_raised ].
        op_cases.
      - rewrite count_op_cons. op_cases. }
    destruct (h X c s) as [[x | e] s1].
    + specialize (IHbody x s1). destruct (run h (body x) s1) as [[o s2] tr].
      cbn [snd] in IHbody.
      destruct (h unit leave s2) as [[u | e'] s3].
      * destruct o as [b | e].
        -- specialize (IH x b s3). destruct (run h (k x b) s3) as [[o' s4] tr'].
           cbn [snd] in IH |- *.
           rewrite answered_returned, count_op_cons, answered_app, count_op_app.
           destruct (Hexit (Returned u) tr') as [-> ->]. op_cases.
        -- cbn [snd].
           rewrite answered_returned, count_op_cons, answered_app, count_op_app.
           destruct (Hexit (Returned u) []) as [-> ->].
           change (answered enter []) with 0%nat. change (count_op exit []) with 0%nat.
           op_cases.
      * cbn [snd].
        rewrite answered_returned, count_op_cons, answered_app, count_op_app.
        destruct (Hexit (Raised e') []) as [-> ->].
        change (answered enter []) with 0%nat. change (count_op exit []) with 0%nat.
        op_cases.
    + cbn [snd]. rewrite answered_raised, count_op_cons. op_cases.
  - assert (Hexit : forall r tr,
               answered enter (Ev leave r :: tr) = answered enter tr
               /\ count_op exit (Ev leave r :: tr) = count_op exit tr).
    { intros r tr. split.
      - destruct r as [u | e]; [ rewrite answered_returned | apply answered_raised ].
        op_cases.
      - rewrite count_op_cons. op_cases. }
    specialize (IHbody s). destruct (run h body s) as [[o s1] tr]. cbn [snd] in IHbody.
    destruct (h unit leave s1) as [[u | e'] s2].
    + destruct o as [b | e].
      * specialize (IH b s2). destruct (run h (k b) s2) as [[o' s3] tr'].
        cbn [snd] in IH |- *. rewrite answered_app, count_op_app.
        destruct (Hexit (Returned u) tr') as [-> ->]. lia.
      * cbn [snd]. rewrite answered_app, count_op_app.
        destruct (Hexit (Returned u) []) as [-> ->].
        change (answered enter []) with 0%nat. change (count_op exit []) with 0%nat. lia.
    + cbn [snd]. rewrite answered_app, count_op_app.
      destruct (Hexit (Raised e') []) as [-> ->].
      change (answered enter []) with 0%nat. change (count_op exit []) with 0%nat. lia.
Qed.

Lemma bracketed_block (enter exit : op) (X B : Type) (c : call X) (leave : call unit)
    (body : X -> Prog B) :
  op_of c = enter -> op_of leave = exit ->
  (forall x, bracketed enter exit (body x)) ->
  bracketed enter exit (with_ c leave body).
Proof.
  intros Hc Hleave Hbody.
  apply (@bracketed_with _ enter exit _ _ _ c body leave (fun _ b => Ret b));
    [ assumption | assumption | assumption | intros x b; constructor ].
Qed.

Lemma bracketed_other_block (enter exit : op) (X B : Type) (c : call X)
    (leave : call unit) (body : X -> Prog B) :
  op_of c <> enter -> op_of c <> exit -> op_of leave <> enter -> op_of leave <> exit ->
  (forall x, bracketed enter exit (body x)) ->
  bracketed enter exit (with_ c leave body).
Proof.
  intros Hc Hc' Hleave Hleave' Hbody.
  constructor; [ assumption | assumption | intros x ].
  constructor; [ assumption | assumption | apply Hbody | intros b; constructor ].
Qed.

Ltac bracketed_step :=
  first [ apply bracketed_bind; [ apply bracketed_perform; discriminate | intros ? ]
        | apply bracketed_perform; discriminate
        | apply bracketed_ret ].

Lemma train_loop_bracketed (enter exit : op) (device : string) (model : Model)
    (loss_fn : Criterion) (optimizer : Optimizer) (num_batches : Z) (pbar : list Batch) :
  block_of enter exit ->
  forall (batch_idx : Z) (avg_loss : list PyFloat),
    bracketed enter exit
      (train_loop device model loss_fn optimizer num_batches pbar batch_idx avg_loss).
Proof.
  intros [[-> ->] | [-> ->]];
    (induction pbar as [ | batch pbar IH]; intros batch_idx avg_loss; cbn [train_loop];
     [ constructor | ]);
    destruct (b_train batch), (b_test batch); do 12 bracketed_step;
    (destruct (batch_idx >? num_batches); [ constructor | apply IH ]).
Qed.

Lemma test_loop_bracketed (enter exit : op) (device : string) (model : Model)
    (loss_fn : Criterion) (num_batches : Z) (pbar : list Batch) :
  block_of enter exit ->
  forall (batch_idx : Z) (accuracy_list avg_loss : list PyFloat),
    bracketed enter exit
      (test_loop device model loss_fn num_batches pbar batch_idx accuracy_list avg_loss).
Proof.
  intros [[-> ->] | [-> ->]];
    (induction pbar as [ | batch pbar IH]; intros batch_idx accuracy_list avg_loss;
     cbn [test_loop]; [ constructor | ]);
    destruct (b_train batch), (b_test batch); do 14 bracketed_step;
    (destruct (batch_idx >? num_batches); [ constructor | apply IH ]).
Qed.

Lemma train_bracketed (enter exit : op) (device : string) (dataloader : Loader)
    (model : Model) (loss_fn : Criterion) (optimizer : Optimizer) (num_batches : Z) :
  block_of enter exit ->
  bracketed enter exit (train device dataloader model loss_fn optimizer num_batches).
Proof.
  intros Hblock. unfold train. apply bracketed_bind.
  - destruct Hblock as [[-> ->] | [-> ->]].
    + apply bracketed_block; [ reflexivity | reflexivity | intros pbar ].
      apply train_loop_bracketed. now left.
    + apply bracketed_other_block; try discriminate. intros pbar.
      apply train_loop_bracketed. now right.
  - intros avg_loss. destruct Hblock as [[-> ->] | [-> ->]]; bracketed_step.
Qed.

Lemma test_bracketed (enter exit : op) (device : string) (dataloader : Loader)
    (model : Model) (loss_fn : Criterion) (num_batches : Z) :
  block_of enter exit ->
  bracketed enter exit (test device dataloader model loss_fn num_batches).
Proof.
  intros Hblock. unfold test. apply bracketed_bind.
  - destruct Hblock as [[-> ->] | [-> ->]].
    + apply bracketed_other_block; try discriminate. intros _.
      apply bracketed_block; [ reflexivity | reflexivity | intros pbar ].
      apply test_loop_bracketed. now left.
    + apply bracketed_block; [ reflexivity | reflexivity | intros _ ].
      apply bracketed_other_block; try discriminate. intros pbar.
      apply test_loop_bracketed. now right.
  - intros lists. destruct Hblock as [[-> ->] | [-> ->]]; do 3 bracketed_step.
Qed.

Lemma epoch_bracketed (enter exit : op) (device : string) (config : Config)
    (writer : Writer) (trainloader testloader : Loader) (model : Model)
    (loss_fn : Criterion) (optimizer : Optimizer) (t : Z) :
  block_of enter exit ->
  bracketed enter exit
    (epoch device config writer trainloader testloader model loss_fn optimizer t).
Proof.
  intros Hblock. unfold epoch.
  apply bracketed_bind.
  { destruct Hblock as [[-> ->] | [-> ->]]; bracketed_step. }
  intros _. apply bracketed_bind; [ now apply train_bracketed | intros train_loss ].
  apply bracketed_bind.
  { unfold py_mod. destruct (log_every config =? 0); constructor. }
  intros r. destruct (r =? 0); [ | constructor ].
  apply bracketed_bind; [ now apply test_bracketed | ].
  intros [test_accuracy test_loss].
  destruct Hblock as [[-> ->] | [-> ->]]; do 4 bracketed_step.
Qed.

Lemma main_bracketed (enter exit : op) (device : string) (config : Config) :
  block_of enter exit -> bracketed enter exit (main device config).
Proof.
  intros Hblock. unfold main. cbv zeta.
  assert (Hcall : forall (X : Type) (c : call X),
             epoch_op (op_of c) = false -> bracketed enter exit (perform c)).
  { intros X c Hc.
    destruct Hblock as [[-> ->] | [-> ->]];
      apply bracketed_perform; intros Heq; rewrite Heq in Hc; discriminate Hc. }
  do 13 (apply bracketed_bind; [ apply Hcall; reflexivity | intros ? ]).
  apply bracketed_bind.
  { match goal with
    | |- context [if ?available then _ else _] => destruct available
    end; [ apply Hcall; reflexivity | constructor ]. }
  intros _. induction (range (epochs config)) as [ | t ts IH]; cbn [for_each].
  - constructor.
  - apply bracketed_bind; [ now apply epoch_bracketed | intros _; apply IH ].
Qed.

(** X9.  Every [with] block that is entered is left, whatever the library
    answers and wherever a call fails: in every run of [train], of [test] and
    of [main], the progress bar is closed as often as [tqdm(...)] returned
    one, and [no_grad] is left as often as it was entered. *)
Theorem blocks_are_left (S : Type) (h : handler S) (device : string)
    (dataloader : Loader) (model : Model) (loss_fn : Criterion) (optimizer : Optimizer)
    (num_batches : Z) (config : Config) (s : S) :
  let balanced (tr : list event) :=
    answered OpTqdm tr = count_op OpTqdmClose tr
    /\ answered OpNoGradEnter tr = count_op OpNoGradExit tr in
  balanced (trace_of (run h (train device dataloader model loss_fn optimizer
                               num_batches) s))
  /\ balanced (trace_of (run h (test device dataloader model loss_fn num_batches) s))
  /\ balanced (trace_of (run h (main device config) s)).
Proof.
  cbv zeta.
  assert (Hbar : block_of OpTqdm OpTqdmClose) by (left; split; reflexivity).
  assert (Hgrad : block_of OpNoGradEnter OpNoGradExit) by (right; split; reflexivity).
  repeat split;
    (apply bracketed_trace; [ discriminate | ]);
    first [ now apply train_bracketed | now apply test_bracketed | now apply main_bracketed ].
Qed.

End Blocks.

(** ** The log directory *)

Lemma string_app_inv_head (a b c : string) : (a ++ b)%string = (a ++ c)%string -> b = c.
Proof.
  induction a as [ | ch a IH]; cbn [String.append]; [ trivial | ].
  intros [= H]. now apply IH.
Qed.

Lemma string_length_app (a b : string) :
  String.length (a ++ b) = (String.length a + String.length b)%nat.
Proof. induction a as [ | ch a IH]; cbn [String.append String.length plus]; congruence. Qed.

Lemma string_app_inv_tail (a b c : string) : (a ++ c)%string = (b ++ c)%string -> a = b.
Proof.
  revert b. induction a as [ | ch a IH]; intros [ | ch' b] H.
  - reflexivity.
  - apply (f_equal String.length) in H. rewrite !string_length_app in H.
    cbn [String.length] in H. lia.
  - apply (f_equal String.length) in H. rewrite !string_length_app in H.
    cbn [String.length] in H. lia.
  - cbn [String.append] in H. injection H as -> H. f_equal. now apply IH.
Qed.

(** [str] on ints is one to one. *)
Lemma str_int_inj (n m : Z) : str_int n = str_int m -> n = m.
Proof.
  unfold str_int. intros H.
  assert (Hnonnil : forall z : Z,
             Z.to_int z <> Decimal.Pos Decimal.Nil /\ Z.to_int z <> Decimal.Neg Decimal.Nil).
  { intros [ | p | p]; cbn [Z.to_int]; split; try discriminate;
      intros [= Hp]; exact (DecimalPos.Unsigned.to_uint_nonnil p Hp). }
  apply DecimalZ.to_int_inj.
  assert (Hread : Some (Z.to_int n) = Some (Z.to_int m)).
  { rewrite <- (NilZero.isi (Z.to_int n)) by apply Hnonnil.
    rewrite <- (NilZero.isi (Z.to_int m)) by apply Hnonnil.
    now rewrite H. }
  now injection Hread.
Qed.

(** X10.  Runs started on the same [--path] write to the same log directory
    exactly when they have the same [--num_classes]: the directory name
    holds the number of classes and the constant [1], so that runs that
    differ in the number of samples, of batches or of epochs share their
    directory. *)
Theorem logdir_separates_ways (config config' : Config) :
  path config = path config' ->
  (logdir_of config = logdir_of config' <-> num_classes config = num_classes config').
Proof.
  intros Hpath. unfold logdir_of. rewrite Hpath. split.
  - intros H.
    do 4 apply string_app_inv_head in H.
    apply string_app_inv_tail in H. now apply str_int_inj.
  - now intros ->.
Qed.

Lemma logdir_separates_ways_witness :
  path Toy.config = path (with_epochs Toy.config_log_every_zero 7)
  /\ logdir_of Toy.config = logdir_of (with_epochs Toy.config_log_every_zero 7).
Proof.
  split; [ reflexivity | ].
  apply (logdir_separates_ways Toy.config (with_epochs Toy.config_log_every_zero 7));
    reflexivity.
Defined.

(** ** The module on an empty command line *)

Section DefaultRun.
Context {D : Domain}.
Variables (S : Type) (lib : library S).

(** The run of the module: the check of line 18, [os.getcwd()] for the
    default of [--path], [parse_args], then [main]. *)
Lemma train_py_run (s : S) :
  exists (available : bool) (cwd : string) (s2 s3 : S),
    let config := fst (lib Config (ParseArgs (parser cwd)) s2) in
    let device := (if available then "cuda" else "cpu")%string in
    run (answer lib) train_py s
    = (let '(o, s4, tr) := run (answer lib) (main device config) s3 in
       (o, s4,
        Ev CudaIsAvailable (Returned available)
           :: Ev OsGetcwd (Returned cwd)
           :: Ev (ParseArgs (parser cwd)) (Returned config) :: tr)).
Proof.
  unfold train_py, device_init. cbn [bind perform run].
  unfold answer at 1. destruct (lib bool CudaIsAvailable s) as [available s1].
  unfold answer at 1. destruct (lib string OsGetcwd s1) as [cwd s2].
  unfold answer at 1.
  exists available, cwd, s2, (snd (lib Config (ParseArgs (parser cwd)) s2)).
  cbv zeta. destruct (lib Config (ParseArgs (parser cwd)) s2) as [config s3].
  cbn [fst snd]. destruct (run (answer lib) (main _ config) s3) as [[o s4] tr].
  reflexivity.
Qed.

(** X11.  Started without arguments ([parse_args] answers the defaults),
    the module returns after a hundred epochs, each of them evaluated and
    logged: it opens one writer, on [<cwd>/model/_5_1] where [<cwd>] is what
    [os.getcwd()] answered, enters [no_grad] a hundred times, makes two
    hundred passes over a loader and writes three hundred scalars. *)
Theorem module_default_run (s : S) :
  (forall (cwd : string) (s0 : S),
      config_of (argparse.defaults (parser cwd))
      = Some (fst (lib Config (ParseArgs (parser cwd)) s0))) ->
  let r := run (answer lib) train_py s in
  result_of r = Returned tt
  /\ (exists (cwd : string) (writer : Writer),
         In (Ev OsGetcwd (Returned cwd)) (trace_of r)
         /\ writers_opened (trace_of r)
            = [((cwd ++ "/model/_5_1")%string, Returned writer)])
  /\ count_op OpNoGradEnter (trace_of r) = 100%nat
  /\ count_op OpTqdm (trace_of r) = 200%nat
  /\ count_op OpAddScalar (trace_of r) = 300%nat.
Proof.
  intros Hparse. cbv zeta.
  destruct (train_py_run s) as (available & cwd & s2 & s3 & Hrun). cbv zeta in Hrun.
  specialize (Hparse cwd s2).
  set (config := fst (lib Config (ParseArgs (parser cwd)) s2)) in *.
  assert (Hconfig : config = {| num_classes := 5; num_samples := 1; num_batches := 500;
                                batch_size := 32; epochs := 100; log_every := 1;
                                path := cwd |}).
  { change (config_of (argparse.defaults (parser cwd)))
      with (Some {| num_classes := 5; num_samples := 1; num_batches := 500;
                    batch_size := 32; epochs := 100; log_every := 1; path := cwd |})
      in Hparse.
    now injection Hparse. }
  set (device := (if available then "cuda" else "cpu")%string) in *.
  assert (Hnz : log_every config <> 0) by (rewrite Hconfig; discriminate).
  assert (Hcount : forall o, epoch_op o = true ->
             count_op o (trace_of (run (answer lib) train_py s))
             = count_op o (trace_of (run (answer lib) (main device config) s3))).
  { intros o Ho. rewrite Hrun.
    destruct (run (answer lib) (main device config) s3) as [[o' s4] tr].
    unfold trace_of. cbn [snd]. rewrite !count_op_cons. cbn [ev_call op_of].
    repeat match goal with
           | |- context [op_eq_dec ?a o] =>
               destruct (op_eq_dec a o) as [Heq | _];
               [ rewrite <- Heq in Ho; discriminate Ho | ]
           end.
    reflexivity. }
  assert (Hevery : length (logging_epochs config) = 100%nat).
  { rewrite logging_epochs_count by (rewrite Hconfig; cbn [log_every]; lia).
    rewrite Hconfig. reflexivity. }
  assert (Hepochs : Z.to_nat (epochs config) = 100%nat) by (rewrite Hconfig; reflexivity).
  destruct (main_result_trace S lib device config s3) as (a & s0 & Hresult & Htrace).
  destruct (epochs_run S lib device config a s0) as (Honly & Hreturns & _).
  destruct (Hreturns Hnz) as (Hreturned & _). cbv zeta in Hresult, Htrace, Hreturned, Honly.
  split; [ | split; [ | split; [ | split ] ] ].
  - rewrite Hrun. rewrite <- Hreturned, <- Hresult.
    destruct (run (answer lib) (main device config) s3) as [[o' s4] tr]. reflexivity.
  - exists cwd, (sa_writer a).
    assert (Htr : trace_of (run (answer lib) train_py s)
                  = Ev CudaIsAvailable (Returned available)
                       :: Ev OsGetcwd (Returned cwd)
                       :: Ev (ParseArgs (parser cwd)) (Returned config)
                       :: trace_of (run (answer lib) (main device config) s3)).
    { rewrite Hrun.
      destruct (run (answer lib) (main device config) s3) as [[o' s4] tr]. reflexivity. }
    rewrite Htr, Htrace.
    split; [ right; left; reflexivity | ].
    unfold writers_opened. cbn [flat_map writer_of app].
    rewrite flat_map_app.
    rewrite (flat_map_none _ writer_of OpSummaryWriter epoch_op
               writer_of_other eq_refl _ Honly).
    unfold setup_events. cbv zeta. rewrite Hconfig.
    destruct (sa_cuda a); reflexivity.
  - rewrite (Hcount OpNoGradEnter eq_refl).
    rewrite (main_count S lib device config OpNoGradEnter 0 0 s3 Hnz eq_refl);
      [ | intros; reflexivity | intros; reflexivity ].
    rewrite Hevery, Hepochs. reflexivity.
  - rewrite (Hcount OpTqdm eq_refl).
    rewrite (main_count S lib device config OpTqdm 0 0 s3 Hnz eq_refl);
      [ | intros; reflexivity | intros; reflexivity ].
    rewrite Hevery, Hepochs. reflexivity.
  - rewrite (Hcount OpAddScalar eq_refl).
    rewrite (main_count S lib device config OpAddScalar 0 0 s3 Hnz eq_refl);
      [ | intros; reflexivity | intros; reflexivity ].
    rewrite Hevery, Hepochs. reflexivity.
Qed.

End DefaultRun.

Lemma module_default_run_witness :
  (forall (cwd : string) (s0 : Z),
      config_of (argparse.defaults (parser cwd))
      = Some (fst (Toy.lib (ParseArgs (D := Toy.domain) (parser cwd)) s0)))
  /\ result_of (run (answer Toy.lib) (train_py (D := Toy.domain)) 0) = Returned tt.
Proof.
  split; [ intros cwd s0; reflexivity | ].
  exact (proj1 (module_default_run (D := Toy.domain) Z Toy.lib 0
                  (fun cwd s0 => eq_refl))).
Defined.

(** ** The scalars of one epoch *)

Section EpochScalars.
Context {D : Domain}.
Variables (S : Type) (h : handler S).
Variables (device : string) (config : Config) (writer : Writer).
Variables (trainloader testloader : Loader) (model : Model).
Variables (loss_fn : Criterion) (optimizer : Optimizer).

Lemma train_writes_no_scalar (s : S) :
  count_op OpAddScalar
    (trace_of (run h (train device trainloader model loss_fn optimizer
                        (num_batches config)) s)) = 0%nat.
Proof.
  apply count_op_none with (P := fun o => train_op o || exit_op o); [ | reflexivity ].
  apply built_trace with (raises := fun _ => False). apply train_built.
Qed.

Lemma test_writes_no_scalar (s : S) :
  count_op OpAddScalar
    (trace_of (run h (test device testloader model loss_fn (num_batches config)) s))
  = 0%nat.
Proof.
  apply count_op_none with (P := fun o => test_op o || exit_op o); [ | reflexivity ].
  apply built_trace with (raises := fun _ => False). apply test_built.
Qed.

(** X12.  An epoch logs all of its three scalars or none, when
    [add_scalar] itself does not fail: the three are written exactly when
    the epoch is one that logs and returns, so a failure of [train], of
    [test] or of a [print] leaves no scalar of that epoch behind, the train
    loss included. *)
Theorem epoch_logs_all_or_nothing (t : Z) (s : S) :
  (forall (w : Writer) (tag : string) (value : PyFloat) (step : Z) (s0 : S),
      fst (h unit (AddScalar w tag value step) s0) = Returned tt) ->
  let r := run h (epoch device config writer trainloader testloader model loss_fn
                    optimizer t) s in
  count_op OpAddScalar (trace_of r)
  = match result_of r with
    | Returned _ => if logs_at config t then 3%nat else 0%nat
    | Raised _ => 0%nat
    end.
Proof.
  intros Hadd. cbv zeta. unfold epoch, logs_at. cbn [bind perform run].
  assert (Hprint : forall (x : string) (r : outcome unit) (tr : list event),
             count_op OpAddScalar (Ev (Print x) r :: tr) = count_op OpAddScalar tr).
  { intros x r tr. rewrite count_op_cons. cbn [ev_call op_of].
    destruct (op_eq_dec OpPrint OpAddScalar) as [Heq | _];
      [ discriminate Heq | reflexivity ]. }
  destruct (h unit (Print (epoch_header t)) s) as [[[] | e] s1]; [ | reflexivity ].
  rewrite run_bind.
  pose proof (train_writes_no_scalar s1) as Htrain.
  destruct (run h (train device trainloader model loss_fn optimizer (num_batches config))
              s1) as [[[train_loss | e] s2] tr1];
    unfold trace_of in Htrain; cbn [snd] in Htrain.
  2:{ unfold trace_of, result_of. cbn [fst snd]. now rewrite Hprint. }
  rewrite run_bind. unfold py_mod.
  destruct (log_every config =? 0).
  { unfold trace_of, result_of. cbn [run fst snd]. now rewrite Hprint, app_nil_r. }
  cbn [run negb andb].
  destruct (t mod log_every config =? 0).
  2:{ unfold trace_of, result_of. cbn [run fst snd]. now rewrite Hprint, app_nil_r. }
  rewrite run_bind.
  pose proof (test_writes_no_scalar s2) as Htest.
  destruct (run h (test device testloader model loss_fn (num_batches config)) s2)
    as [[[[test_accuracy test_loss] | e] s3] tr2];
    unfold trace_of in Htest; cbn [snd] in Htest.
  2:{ unfold trace_of, result_of. cbn [fst snd].
      now rewrite Hprint, !count_op_app, Htrain, Htest. }
  cbn [bind perform run].
  destruct (h unit (Print _) s3) as [[[] | e] s4].
  2:{ unfold trace_of, result_of. cbn [fst snd].
      now rewrite Hprint, !count_op_app, Htrain, Htest, Hprint. }
  pose proof (Hadd writer "Train Loss"%string train_loss t s4) as Hfirst.
  destruct (h unit (AddScalar writer "Train Loss" train_loss t) s4) as [[[] | e] s5];
    [ | discriminate Hfirst ].
  pose proof (Hadd writer "Test Loss"%string test_loss t s5) as Hsecond.
  destruct (h unit (AddScalar writer "Test Loss" test_loss t) s5) as [[[] | e] s6];
    [ | discriminate Hsecond ].
  pose proof (Hadd writer "Meta-Test Accuracy"%string test_accuracy t s6) as Hthird.
  destruct (h unit (AddScalar writer "Meta-Test Accuracy" test_accuracy t) s6)
    as [[[] | e] s7]; [ | discriminate Hthird ].
  unfold trace_of, result_of. cbn [fst snd].
  rewrite Hprint, !count_op_app, Htrain, Htest, Hprint. reflexivity.
Qed.

End EpochScalars.

(** On a device that runs out of memory in [test]: no scalar of the epoch. *)
Lemma epoch_logs_all_or_nothing_witness :
  (forall (w : string) (tag : string) (value : Q) (step : Z) (s0 : Z),
      fst (Toy.small_device (AddScalar (D := Toy.domain) w tag value step) s0)
      = Returned tt)
  /\ count_op OpAddScalar
       (trace_of (run Toy.small_device
                    (epoch (D := Toy.domain) "cuda" Toy.config "w"%string 5%nat 5%nat
                       tt tt tt 0) 0)) = 0%nat.
Proof.
  split; [ intros w tag value step s0; reflexivity | ].
  exact (epoch_logs_all_or_nothing (D := Toy.domain) Z Toy.small_device "cuda" Toy.config
           "w"%string 5%nat 5%nat tt tt tt 0 0 (fun w tag value step s0 => eq_refl)).
Defined.
